(** * Reslify: rendezvous node, peer wire protocol, metadata store, rehydration

    A shallow embedding of the JavaScript sources

    - [src/services/dht.service.js]  ([DHTService]: [announceFile], the
      look-ups and the connection handler of [setupConnectionHandler]),
    - [db.js]                        (the Cassandra metadata store and the
      [FileDownloader] client),
    - [server.js] and its draft      ([rehydrateDHT], [startServer]),
    - [src/utils/mime-types]         ([getMimeType]),
    - [src/controllers/file.controller.js]  ([uploadFile] and [retrieveFile],
      with and without the database),
    - [src/middleware/upload.middleware.js]  (the name of the stored file),

    followed by the properties of the specification, stated on that embedding,
    and by further properties of the code.

    Where a file holds more than one version of a function, the embedding
    follows the latest: the [DHTService] with the two maps [storedFiles] and
    [fileIdToPath] (its connection handler is that of the earlier version,
    one console text apart), the [db.js] that reads its contact points from
    the environment, and the [rehydrateDHT] that runs after
    [initializeDatabase]; the earlier [rehydrateDHT] is embedded beside it as
    the draft.

    Conventions.  A JavaScript string is a [string] whose characters are the
    code units of the JavaScript string; the embedding carries the code units
    below 256.  A [Buffer] is a [list byte].  A [Map] with string keys is
    a [gmap string _].  An [async] function is a function that returns an
    [Outcome]: the value its promise resolves to, or the error it rejects
    with.  What a function does to the outside (console lines, writes to a
    connection, timers, calls into the swarm) is returned as data. *)

From Stdlib Require Import Strings.Byte Ascii String NArith ZArith Lia DecimalString.
From Stdlib Require DecimalPos.
From stdpp Require Import gmap strings list.

Local Open Scope N_scope.

(** ** JavaScript strings *)

Module Js.

(** The line feed, ['\n']. *)
Definition LF : ascii := ascii_of_N 10.

(** [s.includes(c)] for a one-character needle [c]. *)
Fixpoint includes (c : ascii) (s : string) : bool :=
  match s with
  | EmptyString => false
  | String a r => if decide (a = c) then true else includes c r
  end.

(** WhiteSpace and LineTerminator of ECMAScript, among the code units below
    256: TAB, LF, VT, FF, CR, SP and NBSP. *)
Definition is_white_space (a : ascii) : bool :=
  let n := N_of_ascii a in
  ((9 <=? n) && (n <=? 13)) || (n =? 32) || (n =? 160).

Fixpoint trimStart (s : string) : string :=
  match s with
  | EmptyString => EmptyString
  | String a r => if is_white_space a then trimStart r else s
  end.

Fixpoint trimEnd (s : string) : string :=
  match s with
  | EmptyString => EmptyString
  | String a r =>
      match trimEnd r with
      | EmptyString => if is_white_space a then EmptyString else String a EmptyString
      | r' => String a r'
      end
  end.

(** [s.trim()] *)
Definition trim (s : string) : string := trimEnd (trimStart s).

(** The text of successive chunks, one after the other. *)
Fixpoint join (chunks : list string) : string :=
  match chunks with
  | [] => EmptyString
  | c :: r => c +:+ join r
  end.

(** [n] times the character [a]. *)
Fixpoint repeat (a : ascii) (n : nat) : string :=
  match n with
  | O => EmptyString
  | S n' => String a (repeat a n')
  end.

(** [s.toLowerCase()], on the letters A to Z. *)
Definition lower (a : ascii) : ascii :=
  let n := N_of_ascii a in
  if (65 <=? n) && (n <=? 90) then ascii_of_N (n + 32) else a.

Fixpoint toLowerCase (s : string) : string :=
  match s with
  | EmptyString => EmptyString
  | String a r => String (lower a) (toLowerCase r)
  end.

(** A JavaScript number that holds an integer, or NaN. *)
Inductive number := NaN | Int (z : Z).

Definition digit (a : ascii) : option Z :=
  let n := N_of_ascii a in
  if (48 <=? n) && (n <=? 57) then Some (Z.of_N (n - 48)) else None.

Fixpoint digits (acc : Z) (s : string) : Z :=
  match s with
  | EmptyString => acc
  | String a r =>
      match digit a with
      | Some d => digits (10 * acc + d) r
      | None => acc
      end
  end.

Definition unsigned (s : string) : number :=
  match s with
  | EmptyString => NaN
  | String a _ => match digit a with Some _ => Int (digits 0 s) | None => NaN end
  end.

(** [parseInt(s)] on decimal text: leading white space, an optional sign, then
    the longest run of digits; NaN when there is none.  (The [0x] prefix and
    the rounding of integers above 2^53 are not modelled: [getAllFiles]
    produces the decimal text of a 64-bit column.) *)
Definition parseInt (s : string) : number :=
  match trimStart s with
  | String "-" r => match unsigned r with Int z => Int (- z) | NaN => NaN end
  | String "+" r => unsigned r
  | t => unsigned t
  end.

End Js.

(** ** Buffers: UTF-8, hexadecimal and base64 text *)

Module Buffer.

(** The byte with value [n] modulo 256. *)
Definition byte_of_N (n : N) : byte := default Byte.x00 (Byte.of_N (n mod 256)).

(** [Buffer.from(s, 'utf8')]: a code unit below 128 is one byte, one from 128
    to 255 is two. *)
Fixpoint utf8 (s : string) : list byte :=
  match s with
  | EmptyString => []
  | String a r =>
      let n := N_of_ascii a in
      if n <? 128 then byte_of_N n :: utf8 r
      else byte_of_N (192 + n / 64) :: byte_of_N (128 + n mod 64) :: utf8 r
  end.

Definition hex_digit (n : N) : ascii :=
  if n <? 10 then ascii_of_N (48 + n) else ascii_of_N (87 + n).

(** [buf.toString('hex')] *)
Fixpoint hex (bs : list byte) : string :=
  match bs with
  | [] => EmptyString
  | b :: r =>
      String (hex_digit (Byte.to_N b / 16)) (String (hex_digit (Byte.to_N b mod 16)) (hex r))
  end.

(** The base64 alphabet: A-Z, a-z, 0-9, [+] and [/]. *)
Definition b64_char (i : N) : ascii :=
  if i <? 26 then ascii_of_N (65 + i)
  else if i <? 52 then ascii_of_N (71 + i)
  else if i <? 62 then ascii_of_N (i - 4)
  else if i =? 62 then "+"%char
  else "/"%char.

Definition b64_index (a : ascii) : option N :=
  let n := N_of_ascii a in
  if (65 <=? n) && (n <=? 90) then Some (n - 65)
  else if (97 <=? n) && (n <=? 122) then Some (n - 71)
  else if (48 <=? n) && (n <=? 57) then Some (n + 4)
  else if n =? 43 then Some 62
  else if n =? 47 then Some 63
  else None.

Definition pad_char : ascii := "="%char.

(** The four characters of a group of three bytes, of two and of one. *)
Definition group3 (x y z : N) (rest : string) : string :=
  String (b64_char (x / 4)) (String (b64_char (x mod 4 * 16 + y / 16))
    (String (b64_char (y mod 16 * 4 + z / 64)) (String (b64_char (z mod 64)) rest))).

Definition group2 (x y : N) : string :=
  String (b64_char (x / 4)) (String (b64_char (x mod 4 * 16 + y / 16))
    (String (b64_char (y mod 16 * 4)) (String pad_char EmptyString))).

Definition group1 (x : N) : string :=
  String (b64_char (x / 4)) (String (b64_char (x mod 4 * 16))
    (String pad_char (String pad_char EmptyString))).

(** [buf.toString('base64')]: three bytes give four characters; a last group
    of one or two bytes is padded with [=]. *)
Fixpoint base64 (bs : list byte) : string :=
  match bs with
  | [] => EmptyString
  | [x] => group1 (Byte.to_N x)
  | [x; y] => group2 (Byte.to_N x) (Byte.to_N y)
  | x :: y :: z :: r => group3 (Byte.to_N x) (Byte.to_N y) (Byte.to_N z) (base64 r)
  end.

(** The decoding a client applies to the [content] field: groups of four
    characters, padding in the last group only; [None] on any other text. *)
Fixpoint base64_decode (s : string) : option (list byte) :=
  match s with
  | EmptyString => Some []
  | String c1 (String c2 (String c3 (String c4 r))) =>
      match b64_index c1, b64_index c2 with
      | Some i1, Some i2 =>
          match b64_index c3, b64_index c4 with
          | Some i3, Some i4 =>
              match base64_decode r with
              | Some bs =>
                  Some (byte_of_N (i1 * 4 + i2 / 16) :: byte_of_N (i2 mod 16 * 16 + i3 / 4)
                          :: byte_of_N (i3 mod 4 * 64 + i4) :: bs)
              | None => None
              end
          | Some i3, None =>
              if decide (c4 = pad_char /\ r = EmptyString)
              then Some [byte_of_N (i1 * 4 + i2 / 16); byte_of_N (i2 mod 16 * 16 + i3 / 4)]
              else None
          | None, _ =>
              if decide (c3 = pad_char /\ c4 = pad_char /\ r = EmptyString)
              then Some [byte_of_N (i1 * 4 + i2 / 16)] else None
          end
      | _, _ => None
      end
  | _ => None
  end.


End Buffer.

(** ** SHA-256 (FIPS 180-4), what [crypto.createHash('sha256')] computes *)

Module Sha256.

Definition add32 (x y : N) : N := (x + y) mod 4294967296.
Definition not32 (x : N) : N := N.lxor x 4294967295.
Definition rotr (n x : N) : N :=
  N.lor (N.shiftr x n) (N.shiftl x (32 - n) mod 4294967296).
Definition shr (n x : N) : N := N.shiftr x n.

Definition Ch (x y z : N) : N := N.lxor (N.land x y) (N.land (not32 x) z).
Definition Maj (x y z : N) : N :=
  N.lxor (N.lxor (N.land x y) (N.land x z)) (N.land y z).
Definition Sum0 (x : N) : N := N.lxor (N.lxor (rotr 2 x) (rotr 13 x)) (rotr 22 x).
Definition Sum1 (x : N) : N := N.lxor (N.lxor (rotr 6 x) (rotr 11 x)) (rotr 25 x).
Definition sig0 (x : N) : N := N.lxor (N.lxor (rotr 7 x) (rotr 18 x)) (shr 3 x).
Definition sig1 (x : N) : N := N.lxor (N.lxor (rotr 17 x) (rotr 19 x)) (shr 10 x).

(** The round constants. *)
Definition K : list N :=
  [ 0x428A2F98; 0x71374491; 0xB5C0FBCF; 0xE9B5DBA5; 0x3956C25B; 0x59F111F1;
    0x923F82A4; 0xAB1C5ED5; 0xD807AA98; 0x12835B01; 0x243185BE; 0x550C7DC3;
    0x72BE5D74; 0x80DEB1FE; 0x9BDC06A7; 0xC19BF174; 0xE49B69C1; 0xEFBE4786;
    0x0FC19DC6; 0x240CA1CC; 0x2DE92C6F; 0x4A7484AA; 0x5CB0A9DC; 0x76F988DA;
    0x983E5152; 0xA831C66D; 0xB00327C8; 0xBF597FC7; 0xC6E00BF3; 0xD5A79147;
    0x06CA6351; 0x14292967; 0x27B70A85; 0x2E1B2138; 0x4D2C6DFC; 0x53380D13;
    0x650A7354; 0x766A0ABB; 0x81C2C92E; 0x92722C85; 0xA2BFE8A1; 0xA81A664B;
    0xC24B8B70; 0xC76C51A3; 0xD192E819; 0xD6990624; 0xF40E3585; 0x106AA070;
    0x19A4C116; 0x1E376C08; 0x2748774C; 0x34B0BCB5; 0x391C0CB3; 0x4ED8AA4A;
    0x5B9CCA4F; 0x682E6FF3; 0x748F82EE; 0x78A5636F; 0x84C87814; 0x8CC70208;
    0x90BEFFFA; 0xA4506CEB; 0xBEF9A3F7; 0xC67178F2 ].

(** The eight working words. *)
Record Hash := mkHash { ha : N; hb : N; hc : N; hd : N; he : N; hf : N; hg : N; hh : N }.

Definition H0 : Hash :=
  mkHash 0x6A09E667 0xBB67AE85 0x3C6EF372 0xA54FF53A
         0x510E527F 0x9B05688C 0x1F83D9AB 0x5BE0CD19.

(** The bytes of [n], most significant first, over [k] bytes. *)
Fixpoint big_endian (k : nat) (n : N) : list N :=
  match k with
  | O => []
  | S k' => (N.shiftr n (8 * N.of_nat k') mod 256) :: big_endian k' n
  end.

(** Padding: the byte 0x80, zero bytes up to 56 modulo 64, then the length of
    the message in bits as a 64-bit word. *)
Definition pad (msg : list N) : list N :=
  let len := N.of_nat (length msg) in
  let zeros := (64 - (len + 9) mod 64) mod 64 in
  msg ++ 128 :: repeat 0 (N.to_nat zeros) ++ big_endian 8 (8 * len).

(** The 32-bit words of a sequence of byte values, most significant byte
    first. *)
Fixpoint words (bs : list N) : list N :=
  match bs with
  | b0 :: b1 :: b2 :: b3 :: r =>
      (b0 * 16777216 + b1 * 65536 + b2 * 256 + b3) :: words r
  | _ => []
  end.

(** The message schedule, latest word first: [rw] holds W(t-1), W(t-2), ... *)
Fixpoint schedule (n : nat) (rw : list N) : list N :=
  match n with
  | O => rw
  | S n' =>
      let w := add32 (add32 (add32 (sig1 (nth 1 rw 0)) (nth 6 rw 0))
                            (sig0 (nth 14 rw 0))) (nth 15 rw 0) in
      schedule n' (w :: rw)
  end.

Definition round (s : Hash) (kw : N * N) : Hash :=
  let t1 := add32 (add32 (add32 (add32 (hh s) (Sum1 (he s)))
                                (Ch (he s) (hf s) (hg s))) (fst kw)) (snd kw) in
  let t2 := add32 (Sum0 (ha s)) (Maj (ha s) (hb s) (hc s)) in
  mkHash (add32 t1 t2) (ha s) (hb s) (hc s) (add32 (hd s) t1) (he s) (hf s) (hg s).

Definition compress (block : list N) (h : Hash) : Hash :=
  let w := rev (schedule 48 (rev block)) in
  let s := fold_left round (combine K w) h in
  mkHash (add32 (ha h) (ha s)) (add32 (hb h) (hb s)) (add32 (hc h) (hc s))
         (add32 (hd h) (hd s)) (add32 (he h) (he s)) (add32 (hf h) (hf s))
         (add32 (hg h) (hg s)) (add32 (hh h) (hh s)).

Fixpoint blocks (n : nat) (ws : list N) (h : Hash) : Hash :=
  match n with
  | O => h
  | S n' => blocks n' (skipn 16 ws) (compress (firstn 16 ws) h)
  end.

Definition digest_bytes (h : Hash) : list byte :=
  map Buffer.byte_of_N
    (big_endian 4 (ha h) ++ big_endian 4 (hb h) ++ big_endian 4 (hc h)
       ++ big_endian 4 (hd h) ++ big_endian 4 (he h) ++ big_endian 4 (hf h)
       ++ big_endian 4 (hg h) ++ big_endian 4 (hh h)).

(** [crypto.createHash('sha256').update(msg).digest()] *)
Definition sha256 (msg : list byte) : list byte :=
  let ws := words (pad (map Byte.to_N msg)) in
  digest_bytes (blocks (length ws / 16) ws H0).

End Sha256.

(** Bytes can be compared and counted, through their values. *)
#[global] Instance byte_eq_dec : EqDecision byte.
Proof.
  intros x y. destruct (decide (Byte.to_N x = Byte.to_N y)) as [e | n].
  - left. apply (f_equal Byte.of_N) in e. rewrite !Byte.of_to_N in e. congruence.
  - right. congruence.
Defined.

#[global] Instance byte_countable : Countable byte :=
  inj_countable Byte.to_N Byte.of_N Byte.of_to_N.

(** ** Shared vocabulary: promises, console lines, JSON documents, the disk *)

(** What an awaited promise gives: the value it resolves to, or the [message]
    of the error it rejects with. *)
Inductive Outcome (A : Type) : Type :=
  | Resolved (value : A)
  | Rejected (message : string).
Arguments Resolved {A} value.
Arguments Rejected {A} message.

(** A console line, [console.log] or [console.error], with its text (the
    pictographs and the indentation of the source are left out). *)
Inductive Line : Type :=
  | log (text : string)
  | error (text : string).

(** The documents handed to [JSON.stringify]: objects whose properties, in
    the order they are written, hold booleans, numbers and strings. *)
Inductive Value : Type :=
  | JBool (b : bool)
  | JNum (n : N)
  | JStr (s : string).

Definition Json : Type := list (string * Value).

(** A file system entry: a regular file with its content, or an entry whose
    read fails with [message] (a directory, a file without read permission). *)
Inductive Entry : Type :=
  | File (content : list byte)
  | Unreadable (message : string).

Module Fs.

(** [fs.existsSync(path)] *)
Definition existsSync (disk : gmap string Entry) (path : string) : bool :=
  bool_decide (is_Some (disk !! path)).

(** [fs.readFileSync(path)]: the content, or the error that is thrown. *)
Definition readFileSync (disk : gmap string Entry) (path : string) : Outcome (list byte) :=
  match disk !! path with
  | Some (File content) => Resolved content
  | Some (Unreadable message) => Rejected message
  | None => Rejected ("ENOENT: no such file or directory, open '" +:+ path +:+ "'")
  end.

End Fs.

(** [src/config/constants.js] *)
Module Constants.

Definition PORT : string := "3000".
Definition UPLOAD_DIR : string := "./uploads".
Definition MAX_FILE_SIZE : N := 10 * 1024 * 1024.
Definition SERVER_ADDRESS : string := "127.0.0.1:" +:+ PORT.

End Constants.

(** ** [getMimeType] *)

Module Mime.

Definition slash : ascii := "/"%char.
Definition dot : ascii := "."%char.

Fixpoint drop_slashes (cs : list ascii) : list ascii :=
  match cs with
  | c :: r => if decide (c = slash) then drop_slashes r else cs
  | [] => []
  end.

Fixpoint until (stop : ascii) (cs : list ascii) : list ascii :=
  match cs with
  | c :: r => if decide (c = stop) then [] else c :: until stop r
  | [] => []
  end.

Fixpoint after (stop : ascii) (cs : list ascii) : option (list ascii) :=
  match cs with
  | c :: r => if decide (c = stop) then Some r else after stop r
  | [] => None
  end.

(** [path.extname(p)] (POSIX): in the last component of [p], the text from
    the last dot on; empty when there is no dot, when the dot is the first
    character of the component, and for the component [..]. *)
Definition extname (p : string) : string :=
  let back := until slash (drop_slashes (rev (list_ascii_of_string p))) in
  match after dot back with
  | None => EmptyString
  | Some [] => EmptyString
  | Some (_ :: _) =>
      if decide (back = [dot; dot]) then EmptyString
      else string_of_list_ascii (dot :: rev (until dot back))
  end.

Definition mimeTypes : list (string * string) :=
  [ (".txt", "text/plain"); (".pdf", "application/pdf");
    (".jpg", "image/jpeg"); (".jpeg", "image/jpeg"); (".png", "image/png");
    (".gif", "image/gif"); (".json", "application/json");
    (".zip", "application/zip"); (".doc", "application/msword");
    (".docx", "application/vnd.openxmlformats-officedocument.wordprocessingml.document");
    (".mp4", "video/mp4"); (".mp3", "audio/mpeg") ]%string.

Fixpoint assoc (k : string) (table : list (string * string)) : option string :=
  match table with
  | [] => None
  | (k', v) :: r => if decide (k' = k) then Some v else assoc k r
  end.

Definition getMimeType (fileName : string) : string :=
  let ext := Js.toLowerCase (extname fileName) in
  default "application/octet-stream"%string (assoc ext mimeTypes).

End Mime.

(** ** The metadata store, [db.js] *)

Module Db.

(** A row of the table [files]; [file_size] is a nullable 64-bit column. *)
Record Row : Type := mkRow {
  file_id : string;
  file_path : string;
  file_name : string;
  file_size : option Z;
  uploaded_at : N
}.

(** The record the module hands to its callers. *)
Record FileRecord : Type := mkFileRecord {
  fileId : string;
  filePath : string;
  fileName : string;
  fileSize : string;
  uploadedAt : N
}.

(** The Cassandra cluster as the client sees it: the table, the clock behind
    [toTimestamp(now())], and [fault], the error every round trip fails with
    while the cluster cannot be reached. *)
Record Cluster : Type := mkCluster {
  fault : option string;
  files : gmap string Row;
  clock : N
}.

(** The statements the module sends, with their parameters. *)
Inductive Query : Type :=
  | InsertFile (fileId filePath fileName : string) (fileSize : Z)
  | SelectFile (fileId : string)
  | SelectAllFiles
  | DeleteFile (fileId : string)
  | SelectFileId (fileId : string).

(** [client.execute(query, params)]: the new state of the cluster and the rows
    of the result, or the rejection.  (A result row of [SelectFileId] is given
    with all its columns; its only use is to be counted.) *)
Definition execute (c : Cluster) (q : Query) : Cluster * Outcome (list Row) :=
  match fault c with
  | Some message => (c, Rejected message)
  | None =>
      match q with
      | InsertFile fileId filePath fileName fileSize =>
          let row := mkRow fileId filePath fileName (Some fileSize) (clock c) in
          (mkCluster None (<[fileId := row]> (files c)) (clock c), Resolved [])
      | SelectFile fileId | SelectFileId fileId =>
          (c, Resolved (option_list (files c !! fileId)))
      | SelectAllFiles => (c, Resolved (map snd (map_to_list (files c))))
      | DeleteFile fileId =>
          (mkCluster None (delete fileId (files c)) (clock c), Resolved [])
      end
  end.

(** [n.toString()] of a 64-bit integer. *)
Definition decimal (z : Z) : string := DecimalString.NilZero.string_of_int (Z.to_int z).

(** The mapping of a row, as in [getFileMetadata] and [getAllFiles]:
    [fileSize: row.file_size ? row.file_size.toString() : '0']. *)
Definition toRecord (row : Row) : FileRecord :=
  mkFileRecord (file_id row) (file_path row) (file_name row)
    (match file_size row with Some z => decimal z | None => "0"%string end)
    (uploaded_at row).

(** What an operation gives back: the cluster afterwards, the console lines
    written, and what the returned promise settles to. *)
Definition Result (A : Type) : Type := Cluster * list Line * Outcome A.

Definition storeFileMetadata (c : Cluster) (fileId filePath fileName : string)
    (fileSize : Z) : Result bool :=
  let lines := [log "Storing file metadata in Cassandra:";
                log ("File ID: " +:+ fileId); log ("File Name: " +:+ fileName)] in
  match execute c (InsertFile fileId filePath fileName fileSize) with
  | (c', Resolved _) =>
      (c', lines ++ [log "File metadata stored in Cassandra!"], Resolved true)
  | (c', Rejected message) =>
      (c', lines ++ [error ("Error storing file metadata: " +:+ message)],
       Rejected message)
  end.

Definition getFileMetadata (c : Cluster) (fileId : string) : Result (option FileRecord) :=
  let lines := [log "Retrieving file metadata from Cassandra:";
                log ("File ID: " +:+ fileId)] in
  match execute c (SelectFile fileId) with
  | (c', Resolved []) => (c', lines ++ [log "File not found in database"], Resolved None)
  | (c', Resolved (file :: _)) =>
      (c', lines ++ [log "File metadata retrieved!";
                     log ("File Name: " +:+ file_name file);
                     log ("File Path: " +:+ file_path file)],
       Resolved (Some (toRecord file)))
  | (c', Rejected message) =>
      (c', lines ++ [error ("Error retrieving file metadata: " +:+ message)],
       Rejected message)
  end.

Definition getAllFiles (c : Cluster) : Result (list FileRecord) :=
  let lines := [log "Retrieving all files from Cassandra..."] in
  match execute c SelectAllFiles with
  | (c', Resolved rows) =>
      let files := map toRecord rows in
      (c', lines ++ [log ("Retrieved " +:+ decimal (Z.of_nat (length files))
                            +:+ " files from database")],
       Resolved files)
  | (c', Rejected message) =>
      (c', lines ++ [error ("Error retrieving all files: " +:+ message)],
       Rejected message)
  end.

Definition deleteFileMetadata (c : Cluster) (fileId : string) : Result bool :=
  let lines := [log "Deleting file metadata from Cassandra:";
                log ("File ID: " +:+ fileId)] in
  match execute c (DeleteFile fileId) with
  | (c', Resolved _) =>
      (c', lines ++ [log "File metadata deleted from Cassandra!"], Resolved true)
  | (c', Rejected message) =>
      (c', lines ++ [error ("Error deleting file metadata: " +:+ message)],
       Rejected message)
  end.

Definition fileExists (c : Cluster) (fileId : string) : Result bool :=
  match execute c (SelectFileId fileId) with
  | (c', Resolved rows) => (c', [], Resolved (bool_decide (0 < length rows)%nat))
  | (c', Rejected message) =>
      (c', [error ("Error checking file existence: " +:+ message)], Resolved false)
  end.

End Db.

(** ** The rendezvous node, [src/services/dht.service.js] *)

Module Dht.

(** The value [announceFile] stores under a file identifier. *)
Record FileMetadata : Type := mkFileMetadata {
  filePath : string;
  fileName : string;
  topic : list byte;
  size : Js.number;
  uploadedAt : string;
  serverAddress : string
}.

(** The service: the topics its swarm has joined as a server, and the two
    maps of the class. *)
Record DHTService : Type := mkDHTService {
  swarm : gset (list byte);
  storedFiles : gmap string FileMetadata;
  fileIdToPath : gmap string string
}.

(** [new DHTService()] *)
Definition create : DHTService := mkDHTService ∅ ∅ ∅.

(** What [announceFile] resolves to. *)
Record Announced : Type := mkAnnounced {
  a_fileId : string;
  a_fileName : string;
  a_topic : string;
  a_serverAddress : string
}.

(** [crypto.createHash('sha256').update(fileId).digest()] *)
Definition deriveTopic (fileId : string) : list byte :=
  Sha256.sha256 (Buffer.utf8 fileId).

(** [announceFile(fileId, filePath, fileName, fileSize)].  [now] is what
    [new Date().toISOString()] gives during the call and [flush] is what
    [await this.swarm.flush()] settles to; both maps are written and the topic
    is joined before the flush is awaited.  (The console lines of the function
    are left out.) *)
Definition announceFile (s : DHTService) (now : string) (flush : Outcome unit)
    (fileId filePath fileName : string) (fileSize : Js.number)
    : DHTService * Outcome Announced :=
  let topic := deriveTopic fileId in
  let fileMetadata :=
    mkFileMetadata filePath fileName topic fileSize now Constants.SERVER_ADDRESS in
  let s' := mkDHTService ({[ topic ]} ∪ swarm s)
                         (<[fileId := fileMetadata]> (storedFiles s))
                         (<[fileId := filePath]> (fileIdToPath s)) in
  match flush with
  | Resolved _ =>
      (s', Resolved (mkAnnounced fileId fileName (Buffer.hex topic) Constants.SERVER_ADDRESS))
  | Rejected message => (s', Rejected message)
  end.

Definition getFilePath (s : DHTService) (fileId : string) : option string :=
  fileIdToPath s !! fileId.

Definition getFileMetadata (s : DHTService) (fileId : string) : option FileMetadata :=
  storedFiles s !! fileId.

Definition hasFile (s : DHTService) (fileId : string) : bool :=
  bool_decide (is_Some (storedFiles s !! fileId)).

(** The services a process can hold: the new one, and what [announceFile]
    makes of one; the look-ups change nothing. *)
Inductive reachable : DHTService -> Prop :=
  | reachable_create : reachable create
  | reachable_announce s now flush fileId filePath fileName fileSize :
      reachable s ->
      reachable (announceFile s now flush fileId filePath fileName fileSize).1.

(** The two maps agree: they have the same keys, the path map holds the
    [filePath] of the metadata, and [hasFile] says whether there is
    metadata. *)
Definition synchronized (s : DHTService) : Prop :=
  forall fileId,
    (is_Some (storedFiles s !! fileId) <-> is_Some (fileIdToPath s !! fileId))
    /\ getFilePath s fileId = filePath <$> getFileMetadata s fileId
    /\ (hasFile s fileId = true <-> is_Some (getFileMetadata s fileId)).

(** What the handler of a connection does to the outside. *)
Inductive Effect : Type :=
  | Console (line : Line)
  | ReadFile (path : string)
  | ConnWrite (document : Json)
  | EndAfter (ms : N).

(** The two response documents. *)
Definition success_response (fileId : string) (fileInfo : FileMetadata)
    (fileContent : list byte) : Json :=
  [ ("success", JBool true); ("fileId", JStr fileId);
    ("fileName", JStr (fileName fileInfo));
    ("size", JNum (N.of_nat (length fileContent)));
    ("mimeType", JStr (Mime.getMimeType (fileName fileInfo)));
    ("serverAddress", JStr Constants.SERVER_ADDRESS);
    ("content", JStr (Buffer.base64 fileContent)) ]%string.

Definition error_response (err message : string) : Json :=
  [ ("success", JBool false); ("error", JStr err); ("message", JStr message) ]%string.

(** The body of [if (requestData.includes('\n')) { ... }]. *)
Definition dispatch (s : DHTService) (disk : gmap string Entry) (requestData : string)
    : list Effect :=
  let fileId := Js.trim requestData in
  Console (log ("Requested File ID: " +:+ fileId)) ::
  match storedFiles s !! fileId with
  | Some fileInfo =>
      ReadFile (filePath fileInfo) ::
      match Fs.readFileSync disk (filePath fileInfo) with
      | Resolved fileContent =>
          [ ConnWrite (success_response fileId fileInfo fileContent);
            Console (log ("Sent file: " +:+ fileName fileInfo +:+ " ("
                          +:+ Db.decimal (Z.of_nat (length fileContent)) +:+ " bytes)")) ]
      | Rejected message =>
          [ ConnWrite (error_response "Failed to read file" message);
            Console (error ("Error reading file: " +:+ message)) ]
      end
  | None =>
      [ ConnWrite (error_response "File not found" ("No file with ID: " +:+ fileId));
        Console (log ("File not found: " +:+ fileId)) ]
  end ++ [EndAfter 100].

(** The listener [conn.on('data', ...)]: the new value of [requestData] and
    what the event does.  [data] is the chunk after [data.toString()]. *)
Definition on_data (s : DHTService) (disk : gmap string Entry) (requestData data : string)
    : string * list Effect :=
  let requestData := requestData +:+ data in
  if Js.includes Js.LF requestData
  then (requestData, dispatch s disk requestData)
  else (requestData, []).

(** A connection from [swarm.on('connection', ...)] on, fed the data events
    [chunks] in order: [requestData] starts empty. *)
Fixpoint feed (s : DHTService) (disk : gmap string Entry) (requestData : string)
    (chunks : list string) : string * list Effect :=
  match chunks with
  | [] => (requestData, [])
  | data :: rest =>
      let '(requestData', effects) := on_data s disk requestData data in
      let '(final, later) := feed s disk requestData' rest in
      (final, effects ++ later)
  end.

Definition connection (s : DHTService) (disk : gmap string Entry) (chunks : list string)
    : string * list Effect :=
  feed s disk EmptyString chunks.

(** The documents written, the files read and the closings scheduled. *)
Definition written (effects : list Effect) : list Json :=
  omap (fun e => match e with ConnWrite d => Some d | _ => None end) effects.

Definition reads (effects : list Effect) : list string :=
  omap (fun e => match e with ReadFile p => Some p | _ => None end) effects.

Definition closings (effects : list Effect) : list N :=
  omap (fun e => match e with EndAfter ms => Some ms | _ => None end) effects.

(** The property of a document, by name. *)
Fixpoint property (name : string) (document : Json) : option Value :=
  match document with
  | [] => None
  | (k, v) :: r => if decide (k = name) then Some v else property name r
  end.

End Dht.

(** ** The downloading client, [FileDownloader] of [db.js] *)

Module Downloader.

(** The topic [findAndDownload] joins as a client. *)
Definition topic (fileId : string) : list byte :=
  Sha256.sha256 (Buffer.utf8 fileId).

(** What it writes to the connection: [conn.write(fileId + '\n')]. *)
Definition request (fileId : string) : string :=
  fileId +:+ String Js.LF EmptyString.

End Downloader.

(** ** Start-up, [server.js] *)

Module Server.

(** What a rehydration pass does to the outside: console lines, and the calls
    [dhtService.announceFile(fileId, filePath, fileName, fileSize)]. *)
Inductive Event : Type :=
  | Out (line : Line)
  | Announce (fileId filePath fileName : string) (fileSize : Js.number).

(** The state a pass leaves (the cluster and the service), its events, and
    how its block of statements ended. *)
Definition Pass : Type := Db.Cluster * Dht.DHTService * list Event * Outcome unit.

(** The loop [for (const file of files)] of [rehydrateDHT].  [net k] is what
    the call number [k] of [announceFile] in this pass meets: the time, and
    what the flush of the swarm settles to.  A rejected [await] leaves the
    loop. *)
Fixpoint rehydrate_files (disk : gmap string Entry) (net : nat -> string * Outcome unit)
    (k : nat) (files : list Db.FileRecord) (s : Dht.DHTService)
    : Dht.DHTService * list Event * Outcome unit :=
  match files with
  | [] => (s, [], Resolved tt)
  | file :: rest =>
      if Fs.existsSync disk (Db.filePath file) then
        let call := Announce (Db.fileId file) (Db.filePath file) (Db.fileName file)
                             (Js.parseInt (Db.fileSize file)) in
        match Dht.announceFile s (net k).1 (net k).2 (Db.fileId file) (Db.filePath file)
                (Db.fileName file) (Js.parseInt (Db.fileSize file)) with
        | (s', Resolved _) =>
            let '(s'', events, end_) := rehydrate_files disk net (S k) rest s' in
            (s'', call :: Out (log ("Rehydrated: " +:+ Db.fileName file)) :: events, end_)
        | (s', Rejected message) => (s', [call], Rejected message)
        end
      else
        let '(s', events, end_) := rehydrate_files disk net k rest s in
        (s', Out (log ("File missing on disk: " +:+ Db.fileName file)) :: events, end_)
  end.

(** The [try] block of [rehydrateDHT]. *)
Definition rehydrate_try (c : Db.Cluster) (disk : gmap string Entry)
    (net : nat -> string * Outcome unit) (s : Dht.DHTService) : Pass :=
  match Db.getAllFiles c with
  | (c', lines, Resolved files) =>
      match files with
      | [] => (c', s, map Out lines ++ [Out (log "No files in database to rehydrate")],
               Resolved tt)
      | _ :: _ =>
          let '(s', events, end_) := rehydrate_files disk net 0 files s in
          (c', s',
           map Out lines
             ++ Out (log ("Found " +:+ Db.decimal (Z.of_nat (length files))
                            +:+ " file(s) in database")) :: events
             ++ match end_ with
                | Resolved _ => [Out (log "DHT rehydration complete!")]
                | Rejected _ => []
                end,
           end_)
      end
  | (c', lines, Rejected message) => (c', s, map Out lines, Rejected message)
  end.

(** [rehydrateDHT()]: the block, and its [catch], which prints the error and
    does not throw. *)
Definition rehydrateDHT (c : Db.Cluster) (disk : gmap string Entry)
    (net : nat -> string * Outcome unit) (s : Dht.DHTService) : Pass :=
  let '(c', s', events, end_) := rehydrate_try c disk net s in
  let start := Out (log "Rehydrating DHT from Cassandra database...") in
  match end_ with
  | Resolved _ => (c', s', start :: events, Resolved tt)
  | Rejected message =>
      (c', s',
       start :: events ++ [Out (error ("Error during DHT rehydration: " +:+ message))],
       Resolved tt)
  end.

(** How [startServer()] leaves the process: listening, or ended by
    [process.exit(1)]. *)
Inductive Startup : Type :=
  | Listening (c : Db.Cluster) (s : Dht.DHTService) (events : list Event)
  | Exited (code : N).

(** [await db.initializeDatabase()], as far as its promise goes: it rejects
    when the cluster cannot be reached. *)
Definition initializeDatabase (c : Db.Cluster) : Outcome bool :=
  match Db.fault c with
  | Some message => Rejected message
  | None => Resolved true
  end.

(** [startServer()].  [c] is the cluster met by [initializeDatabase], [c'] the
    cluster met by the pass that follows. *)
Definition startServer (c c' : Db.Cluster) (disk : gmap string Entry)
    (net : nat -> string * Outcome unit) (s : Dht.DHTService) : Startup :=
  match initializeDatabase c with
  | Rejected _ => Exited 1
  | Resolved _ =>
      match rehydrateDHT c' disk net s with
      | (c'', s', events, Resolved _) => Listening c'' s' events
      | (_, _, _, Rejected _) => Exited 1
      end
  end.

(** *** The draft of [server.js] *)

(** [file[name]] on a record of [getAllFiles], for the properties that hold
    strings; [None] is [undefined], the value of a property the record does
    not have. *)
Definition property (file : Db.FileRecord) (name : string) : option string :=
  if decide (name = "fileId"%string) then Some (Db.fileId file)
  else if decide (name = "filePath"%string) then Some (Db.filePath file)
  else if decide (name = "fileName"%string) then Some (Db.fileName file)
  else if decide (name = "fileSize"%string) then Some (Db.fileSize file)
  else None.

(** [!v]: [undefined] and the empty string are falsy. *)
Definition not_ (v : option string) : bool :=
  match v with
  | None | Some EmptyString => true
  | Some _ => false
  end.

(** The error [crypto]'s [update(undefined)] throws in [announceFile]. *)
Definition invalid_arg_type : string :=
  let q := String (ascii_of_N 34) EmptyString in
  "The " +:+ q +:+ "data" +:+ q +:+ " argument must be of type string or an instance of Buffer, TypedArray, or DataView. Received undefined".

(** The loop of the draft: it tests [file.fieldId] and announces
    [file.field].  (A call [announceFile(undefined, ...)] is given by the
    rejection it ends in, before the service is touched.) *)
Fixpoint draft_files (disk : gmap string Entry) (net : nat -> string * Outcome unit)
    (k : nat) (files : list Db.FileRecord) (s : Dht.DHTService)
    : Dht.DHTService * list Event * Outcome unit :=
  match files with
  | [] => (s, [], Resolved tt)
  | file :: rest =>
      if not_ (property file "fieldId") then
        let '(s', events, end_) := draft_files disk net k rest s in
        (s', Out (log ("Skipping invalid file entry with missing fileId "
                         +:+ Db.fileName file)) :: events, end_)
      else if Fs.existsSync disk (Db.filePath file) then
        match property file "field" with
        | Some id =>
            let call := Announce id (Db.filePath file) (Db.fileName file)
                                 (Js.parseInt (Db.fileSize file)) in
            match Dht.announceFile s (net k).1 (net k).2 id (Db.filePath file)
                    (Db.fileName file) (Js.parseInt (Db.fileSize file)) with
            | (s', Resolved _) =>
                let '(s'', events, end_) := draft_files disk net (S k) rest s' in
                (s'', call :: Out (log ("Rehydrated " +:+ Db.fileName file)) :: events, end_)
            | (s', Rejected message) => (s', [call], Rejected message)
            end
        | None => (s, [], Rejected invalid_arg_type)
        end
      else
        let '(s', events, end_) := draft_files disk net k rest s in
        (s', Out (log ("File missing on disk, skipping: " +:+ Db.fileName file)) :: events,
         end_)
  end.

(** [rehydrateDHT()] of the draft. *)
Definition draft_rehydrateDHT (c : Db.Cluster) (disk : gmap string Entry)
    (net : nat -> string * Outcome unit) (s : Dht.DHTService) : Pass :=
  let start := Out (log "Rehydrating DHT from Cassandra database...") in
  match Db.getAllFiles c with
  | (c', lines, Resolved []) =>
      (c', s, start :: map Out lines ++ [Out (log "no files in databse to rehydrate")],
       Resolved tt)
  | (c', lines, Resolved files) =>
      let '(s', events, end_) := draft_files disk net 0 files s in
      (c', s',
       start :: map Out lines
         ++ Out (log "found undefined filke(s) in databse") :: events
         ++ match end_ with
            | Resolved _ => [Out (log "DHT rehydration complete!")]
            | Rejected message =>
                [Out (error ("Error during DHT rehydration: " +:+ message))]
            end,
       Resolved tt)
  | (c', lines, Rejected message) =>
      (c', s,
       start :: map Out lines ++ [Out (error ("Error during DHT rehydration: " +:+ message))],
       Resolved tt)
  end.

(** The calls to [announceFile] among the events, and the lines that say a
    file is missing. *)
Definition announces (events : list Event) : list (string * string * string * Js.number) :=
  omap (fun e => match e with
                 | Announce fileId filePath fileName fileSize =>
                     Some (fileId, filePath, fileName, fileSize)
                 | Out _ => None
                 end) events.

Definition is_missing_line (e : Event) : bool :=
  match e with
  | Out (log text) => String.prefix "File missing on disk: " text
  | _ => false
  end.

(** What one turn of the loop of [rehydrateDHT] prints and calls for a
    record when its [announceFile] resolves. *)
Definition record_events (disk : gmap string Entry) (file : Db.FileRecord) : list Event :=
  if Fs.existsSync disk (Db.filePath file)
  then [ Announce (Db.fileId file) (Db.filePath file) (Db.fileName file)
           (Js.parseInt (Db.fileSize file));
         Out (log ("Rehydrated: " +:+ Db.fileName file)) ]
  else [ Out (log ("File missing on disk: " +:+ Db.fileName file)) ].

End Server.

(** ** A small installation, for the examples *)

Module Scenario.

(** A cluster with two records. *)
Definition two_records : Db.Cluster :=
  Db.mkCluster None
    (<[ "f1"%string := Db.mkRow "f1" "/uploads/a.txt" "a.txt" (Some 2%Z) 0 ]>
       (<[ "f2"%string := Db.mkRow "f2" "/uploads/b.txt" "b.txt" (Some 3%Z) 0 ]> ∅))
    0.

(** A disk with the files of both records, and one with the first only. *)
Definition both_files : gmap string Entry :=
  <[ "/uploads/a.txt"%string := File (Buffer.utf8 "hi") ]>
    (<[ "/uploads/b.txt"%string := File (Buffer.utf8 "hey") ]> ∅).

Definition first_file_only : gmap string Entry :=
  <[ "/uploads/a.txt"%string := File (Buffer.utf8 "hi") ]> ∅.

(** A network on which every flush resolves, and one on which the first
    flush of a pass rejects. *)
Definition calm (k : nat) : string * Outcome unit :=
  ("2025-01-01T00:00:00.000Z"%string, Resolved tt).

Definition first_rejects (k : nat) : string * Outcome unit :=
  match k with
  | O => ("2025-01-01T00:00:00.000Z"%string, Rejected "flush failed"%string)
  | S _ => ("2025-01-01T00:00:01.000Z"%string, Resolved tt)
  end.

End Scenario.

(** ** The upload middleware, [src/middleware/upload.middleware.js] *)

Module Upload.

(** [name.replace(/\s+/g, '-')], read from left to right: [in_run] says that
    the character before was white space, already replaced. *)
Fixpoint sanitize_from (in_run : bool) (name : string) : string :=
  match name with
  | EmptyString => EmptyString
  | String a r =>
      if Js.is_white_space a
      then (if in_run then sanitize_from true r else String "-" (sanitize_from true r))
      else String a (sanitize_from false r)
  end.

Definition sanitize (originalname : string) : string := sanitize_from false originalname.

(** The [filename] of the disk storage: [timestamp] is [Date.now()] and
    [uniqueId] is what [uuidv4()] gave. *)
Definition filename (timestamp : Z) (uniqueId originalname : string) : string :=
  Db.decimal timestamp +:+ "-" +:+ uniqueId +:+ "-" +:+ sanitize originalname.

(** No character of the text is white space. *)
Fixpoint no_white_space (s : string) : bool :=
  match s with
  | EmptyString => true
  | String a r => negb (Js.is_white_space a) && no_white_space r
  end.

End Upload.

(** ** The controller, [src/controllers/file.controller.js] *)

Module Controller.

(** The classes of characters of the pattern of [retrieveFile],
    [/^[0-9a-f]{8}-[0-9a-f]{4}-4[0-9a-f]{3}-[89ab][0-9a-f]{3}-[0-9a-f]{12}$/i]. *)
Inductive Class : Type := Hex | Dash | Four | Variant.

Definition in_class (k : Class) (a : ascii) : bool :=
  let n := N_of_ascii a in
  match k with
  | Hex => ((48 <=? n) && (n <=? 57)) || ((97 <=? n) && (n <=? 102))
           || ((65 <=? n) && (n <=? 70))
  | Dash => n =? 45
  | Four => n =? 52
  | Variant => (n =? 56) || (n =? 57) || (n =? 97) || (n =? 98) || (n =? 65) || (n =? 66)
  end.

Definition uuid_pattern : list Class :=
  replicate 8 Hex ++ [Dash] ++ replicate 4 Hex ++ [Dash; Four] ++ replicate 3 Hex
    ++ [Dash; Variant] ++ replicate 3 Hex ++ [Dash] ++ replicate 12 Hex.

(** The text is matched from its first character to its last. *)
Fixpoint matches (pattern : list Class) (s : string) : bool :=
  match pattern, s with
  | [], EmptyString => true
  | k :: pattern', String a r => in_class k a && matches pattern' r
  | _, _ => false
  end.

(** [uuidRegex.test(fileId)] *)
Definition uuidRegex_test (fileId : string) : bool := matches uuid_pattern fileId.

(** The bodies of the responses: JSON documents with objects inside. *)
#[warnings="-register-all"]
Inductive Doc : Type :=
  | DBool (b : bool)
  | DNum (z : Z)
  | DStr (s : string)
  | DObj (fields : list (string * Doc)).

(** What a handler does with [res]: [res.status(status).json(body)], or the
    headers it sets followed by [res.download(filePath, fileName, ...)] (the
    transfer and its callback are not followed). *)
Inductive Response : Type :=
  | Sent (status : N) (body : Doc)
  | Download (filePath fileName : string) (headers : list (string * string)).

(** [req.file], as multer leaves it. *)
Record UploadedFile : Type := mkUploadedFile {
  originalname : string;
  filename : string;
  path : string;
  size : Z
}.

Definition failure (err message : string) (more : list (string * Doc)) : Doc :=
  DObj ([ ("success", DBool false); ("error", DStr err); ("message", DStr message) ]%string
          ++ more).

Definition quoted (s : string) : string :=
  String (ascii_of_N 34) EmptyString +:+ s +:+ String (ascii_of_N 34) EmptyString.

(** [uploadFile(req, res)] of the controller with the database.  [fileId] is
    what [uuidv4()] gave; [now] and [flush] are met by [announceFile], and
    [uploadedAt] is the time read for the response.  (The console lines are
    left out.) *)
Definition uploadFile (c : Db.Cluster) (s : Dht.DHTService) (file : option UploadedFile)
    (fileId now : string) (flush : Outcome unit) (uploadedAt : string)
    : Db.Cluster * Dht.DHTService * Response :=
  match file with
  | None =>
      (c, s, Sent 400 (failure "No file uploaded"
                         ("Please provide a file in the " +:+ quoted "file" +:+ " field") []))
  | Some f =>
      match Db.storeFileMetadata c fileId (path f) (originalname f) (size f) with
      | (c', _, Rejected message) => (c', s, Sent 500 (failure "Upload failed" message []))
      | (c', _, Resolved _) =>
          match Dht.announceFile s now flush fileId (path f) (originalname f)
                  (Js.Int (size f)) with
          | (s', Rejected message) => (c', s', Sent 500 (failure "Upload failed" message []))
          | (s', Resolved dhtInfo) =>
              (c', s',
               Sent 200
                 (DObj [ ("success", DBool true); ("fileId", DStr fileId);
                         ("fileName", DStr (originalname f)); ("size", DNum (size f));
                         ("uploadedAt", DStr uploadedAt);
                         ("storage", DObj [ ("database", DStr "cassandra");
                                            ("persisted", DBool true) ]);
                         ("dht", DObj [ ("announced", DBool true);
                                        ("topic", DStr (Dht.a_topic dhtInfo));
                                        ("serverAddress", DStr (Dht.a_serverAddress dhtInfo)) ]);
                         ("retrieveUrl", DStr ("http://localhost:" +:+ Constants.PORT
                                                 +:+ "/retrieve/" +:+ fileId));
                         ("message",
                          DStr "File uploaded, stored in Cassandra, and announced to DHT network")
                       ]%string))
          end
      end
  end.

(** [res.setHeader(name, value)] throws when [value] has a character that a
    header cannot hold: a control character other than TAB, or DEL. *)
Definition header_char_ok (a : ascii) : bool :=
  let n := N_of_ascii a in
  (n =? 9) || ((32 <=? n) && (n <=? 126)) || (128 <=? n).

Fixpoint header_value_ok (value : string) : bool :=
  match value with
  | EmptyString => true
  | String a r => header_char_ok a && header_value_ok r
  end.

(** The message of the error [setHeader] throws. *)
Definition invalid_header (name : string) : string :=
  "Invalid character in header content [" +:+ quoted name +:+ "]".

(** The headers [retrieveFile] sets before the download.  The values of
    [Content-Type], [X-File-ID] (an identifier the pattern accepts) and
    [X-Server-Address] are always accepted; the value of
    [Content-Disposition] is when the name of the file is. *)
Definition download_headers (fileId fileName : string) (more : list (string * string))
    : list (string * string) :=
  [ ("Content-Type", Mime.getMimeType fileName);
    ("Content-Disposition", "attachment; filename=" +:+ quoted fileName);
    ("X-File-ID", fileId);
    ("X-Server-Address", Constants.SERVER_ADDRESS) ]%string ++ more.

(** [retrieveFile(req, res)] of the controller with the database, for
    [req.params.fileId]. *)
Definition retrieveFile (c : Db.Cluster) (disk : gmap string Entry) (fileId : string)
    : Db.Cluster * Response :=
  if negb (uuidRegex_test fileId) then
    (c, Sent 400 (failure "Invalid file ID" "File ID must be a valid UUID v4" []))
  else
    match Db.getFileMetadata c fileId with
    | (c', _, Rejected message) => (c', Sent 500 (failure "Retrieval failed" message []))
    | (c', _, Resolved None) =>
        (c', Sent 404
               (failure "File not found"
                  ("File with ID " +:+ quoted fileId +:+ " not found in database")
                  [ ("hint", DStr "The file may have been deleted or never existed") ]%string))
    | (c', _, Resolved (Some fileMetadata)) =>
        if negb (Fs.existsSync disk (Db.filePath fileMetadata)) then
          (c', Sent 500 (failure "File system error"
                           "File metadata exists but physical file is missing" []))
        else if negb (header_value_ok (Db.fileName fileMetadata)) then
          (c', Sent 500 (failure "Retrieval failed" (invalid_header "Content-Disposition") []))
        else
          (c', Download (Db.filePath fileMetadata) (Db.fileName fileMetadata)
                 (download_headers fileId (Db.fileName fileMetadata)
                    [ ("X-Storage-Type", "cassandra") ]%string))
    end.

(** *** The controller without the database *)

(** [uploadFile(req, res)] of the controller that only announces (and of the
    route [/upload] of the one-file server). *)
Definition uploadFile_memory (s : Dht.DHTService) (file : option UploadedFile)
    (fileId now : string) (flush : Outcome unit) (uploadedAt : string)
    : Dht.DHTService * Response :=
  match file with
  | None =>
      (s, Sent 400 (failure "No file uploaded"
                      ("Please provide a file in the " +:+ quoted "file" +:+ " field") []))
  | Some f =>
      match Dht.announceFile s now flush fileId (path f) (originalname f)
              (Js.Int (size f)) with
      | (s', Rejected message) => (s', Sent 500 (failure "Upload failed" message []))
      | (s', Resolved dhtInfo) =>
          (s',
           Sent 200
             (DObj [ ("success", DBool true); ("fileId", DStr fileId);
                     ("fileName", DStr (originalname f)); ("size", DNum (size f));
                     ("uploadedAt", DStr uploadedAt);
                     ("dht", DObj [ ("announced", DBool true);
                                    ("topic", DStr (Dht.a_topic dhtInfo));
                                    ("serverAddress", DStr (Dht.a_serverAddress dhtInfo)) ]);
                     ("retrieveUrl", DStr ("http://localhost:" +:+ Constants.PORT
                                             +:+ "/retrieve/" +:+ fileId));
                     ("message",
                      DStr "File uploaded and announced to DHT network successfully")
                   ]%string))
      end
  end.

(** [retrieveFile(req, res)] of the same controller.  The name is read from
    the metadata before the disk is asked; reading it from [undefined]
    throws, and [fs.existsSync(undefined)] is false. *)
Definition retrieveFile_memory (s : Dht.DHTService) (disk : gmap string Entry)
    (fileId : string) : Response :=
  if negb (uuidRegex_test fileId) then
    Sent 400 (failure "Invalid file ID" "File ID must be a valid UUID v4" [])
  else if negb (Dht.hasFile s fileId) then
    Sent 404
      (failure "File not found"
         ("File with ID " +:+ quoted fileId +:+ " not found on this server")
         [ ("serverAddress", DStr Constants.SERVER_ADDRESS);
           ("hint", DStr "The file may be on a different DHT node") ]%string)
  else
    match Dht.getFileMetadata s fileId with
    | None =>
        Sent 500 (failure "Retrieval failed"
                    "Cannot read properties of undefined (reading 'fileName')" [])
    | Some fileMetadata =>
        match Dht.getFilePath s fileId with
        | Some filePath =>
            if negb (Fs.existsSync disk filePath) then
              Sent 500 (failure "File system error"
                          "File metadata exists but physical file is missing" [])
            else if negb (header_value_ok (Dht.fileName fileMetadata)) then
              Sent 500 (failure "Retrieval failed" (invalid_header "Content-Disposition") [])
            else
              Download filePath (Dht.fileName fileMetadata)
                (download_headers fileId (Dht.fileName fileMetadata) [])
        | None =>
            Sent 500 (failure "File system error"
                        "File metadata exists but physical file is missing" [])
        end
    end.

End Controller.

(** ** The tables the store can hold *)

Module Tables.

(** A row is filed under its own [file_id], as [INSERT] files it. *)
Definition well_keyed (c : Db.Cluster) : Prop :=
  forall key row, Db.files c !! key = Some row -> Db.file_id row = key.

(** The clusters the operations of [db.js] lead to from an empty table: by a
    stored record, by a deleted one, and by the cluster getting out of reach
    or back, with the time going on. *)
Inductive reachable : Db.Cluster -> Prop :=
  | reachable_empty fault clock : reachable (Db.mkCluster fault ∅ clock)
  | reachable_store c fileId filePath fileName fileSize :
      reachable c ->
      reachable (Db.storeFileMetadata c fileId filePath fileName fileSize).1.1
  | reachable_delete c fileId :
      reachable c -> reachable (Db.deleteFileMetadata c fileId).1.1
  | reachable_weather c fault clock :
      reachable c -> reachable (Db.mkCluster fault (Db.files c) clock).

End Tables.

(** * Properties *)

(** ** Strings *)

Section JsFacts.
Import Js.

Example trim_example :
  trim (String " " (String LF "f1 x" +:+ String LF (String " " EmptyString))) = "f1 x"%string.
Proof. reflexivity. Qed.

Example includes_example :
  includes LF "f1" = false /\ includes LF (Downloader.request "f1") = true.
Proof. split; reflexivity. Qed.

Example parseInt_examples :
  parseInt "1024" = Int 1024 /\ parseInt " -12px" = Int (-12) /\ parseInt "" = NaN.
Proof. repeat split. Qed.

Lemma includes_app c s1 s2 :
  includes c (s1 +:+ s2) = includes c s1 || includes c s2.
Proof.
  induction s1 as [| a r IH]; simpl; [done |].
  destruct (decide (a = c)); [done | apply IH].
Qed.

Lemma append_cons (a : ascii) (r s : string) : String a r +:+ s = String a (r +:+ s).
Proof. reflexivity. Qed.

Lemma append_empty_r (s : string) : s +:+ EmptyString = s.
Proof. induction s as [| a r IH]; [done | by rewrite append_cons, IH]. Qed.

Lemma append_assoc (s1 s2 s3 : string) : (s1 +:+ s2) +:+ s3 = s1 +:+ (s2 +:+ s3).
Proof. induction s1 as [| a r IH]; [done | by rewrite !append_cons, IH]. Qed.


Lemma length_trimStart (s : string) : (String.length (trimStart s) <= String.length s)%nat.
Proof.
  induction s as [| a r IH]; simpl; [lia |].
  destruct (is_white_space a); simpl; lia.
Qed.

Lemma length_trimEnd (s : string) : (String.length (trimEnd s) <= String.length s)%nat.
Proof.
  induction s as [| a r IH]; simpl; [lia |].
  destruct (trimEnd r); [destruct (is_white_space a) |]; simpl in *; lia.
Qed.

(** White space at the end of a text does not change what [trimEnd] keeps. *)
Lemma trimEnd_app_white (s : string) (a : ascii) :
  is_white_space a = true -> trimEnd (s +:+ String a EmptyString) = trimEnd s.
Proof.
  intros Ha. induction s as [| b r IH].
  - simpl. by rewrite Ha.
  - rewrite append_cons. simpl. by rewrite IH.
Qed.

(** A text that [trim] leaves as it is starts with no white space and is
    left as it is by [trimEnd]. *)
Lemma trim_fixed (s : string) :
  trim s = s -> trimStart s = s /\ trimEnd s = s.
Proof.
  unfold trim. intros H.
  assert (Hs : trimStart s = s).
  { destruct s as [| a r]; [done |]. simpl in *.
    destruct (is_white_space a) eqn:Ha; [| done].
    pose proof (length_trimEnd (trimStart r)) as H1.
    pose proof (length_trimStart r) as H2.
    rewrite H in H1. simpl in H1. lia. }
  split; [done | by rewrite Hs in H].
Qed.

Lemma LF_white : is_white_space LF = true.
Proof. reflexivity. Qed.

(** The request of a client for an identifier without white space at its
    ends: the handler's [trim] gives the identifier back. *)
Lemma trim_line (line : string) :
  trim line = line -> trim (line +:+ String LF EmptyString) = line.
Proof.
  intros H. destruct (trim_fixed line H) as [Hs He]. unfold trim.
  destruct line as [| a r]; [done |].
  simpl in Hs. destruct (is_white_space a) eqn:Ha.
  - pose proof (length_trimStart r) as H2. rewrite Hs in H2. simpl in H2. lia.
  - rewrite append_cons. cbn [trimStart]. rewrite Ha, <- append_cons.
    rewrite trimEnd_app_white; [done | apply LF_white].
Qed.




End JsFacts.

(** ** Base64 *)

Section Base64Facts.
Import Buffer.

Example base64_examples :
  base64 (utf8 "Hello, world") = "SGVsbG8sIHdvcmxk"%string
  /\ base64 (utf8 "Hello, world!") = "SGVsbG8sIHdvcmxkIQ=="%string
  /\ base64 (utf8 "Hello, world!!") = "SGVsbG8sIHdvcmxkISE="%string
  /\ base64_decode "aGk=" = Some (utf8 "hi")
  /\ base64_decode "aGk" = None.
Proof. vm_compute. repeat split. Qed.







End Base64Facts.

(** ** The connection handler *)

Section HandlerFacts.
Import Js Dht.
Variables (s : DHTService) (disk : gmap string Entry).

Lemma written_app (e1 e2 : list Effect) : written (e1 ++ e2) = written e1 ++ written e2.
Proof. apply omap_app. Qed.

Lemma reads_app (e1 e2 : list Effect) : reads (e1 ++ e2) = reads e1 ++ reads e2.
Proof. apply omap_app. Qed.

Lemma closings_app (e1 e2 : list Effect) : closings (e1 ++ e2) = closings e1 ++ closings e2.
Proof. apply omap_app. Qed.

(** One pass through the body of the [if] writes one document and sets one
    timer of 100 ms, whatever the request and the state of the disk. *)
Lemma dispatch_once (requestData : string) :
  length (written (dispatch s disk requestData)) = 1%nat
  /\ closings (dispatch s disk requestData) = [100].
Proof.
  unfold dispatch.
  destruct (storedFiles s !! trim requestData) as [fileInfo |]; [| done].
  destruct (Fs.readFileSync disk (filePath fileInfo)); done.
Qed.




(** Without a newline the handler only stores. *)
Lemma feed_quiet (requestData : string) (chunks : list string) :
  includes LF (requestData +:+ join chunks) = false ->
  feed s disk requestData chunks = (requestData +:+ join chunks, []).
Proof.
  revert requestData. induction chunks as [| c r IH]; intros requestData H.
  - simpl. by rewrite append_empty_r.
  - cbn [feed join] in *. unfold on_data. rewrite <- append_assoc in H.
    assert (Hc : includes LF (requestData +:+ c) = false).
    { rewrite includes_app in H. by apply orb_false_elim in H as [H _]. }
    rewrite Hc, (IH _ H). by rewrite append_assoc.
Qed.

(** Once [requestData] holds a newline, every data event is answered. *)
Lemma feed_armed (requestData : string) (chunks : list string) :
  includes LF requestData = true ->
  length (written (feed s disk requestData chunks).2) = length chunks
  /\ closings (feed s disk requestData chunks).2 = replicate (length chunks) 100.
Proof.
  revert requestData. induction chunks as [| c r IH]; intros requestData H; [done |].
  cbn [feed]. unfold on_data.
  assert (Hc : includes LF (requestData +:+ c) = true) by (by rewrite includes_app, H).
  rewrite Hc. specialize (IH _ Hc).
  destruct (feed s disk (requestData +:+ c) r) as [final later].
  cbn [fst snd] in *.
  destruct (dispatch_once (requestData +:+ c)) as [Hw Hcl].
  rewrite written_app, closings_app, length_app, Hw, Hcl.
  destruct IH as [-> ->]. done.
Qed.

Lemma feed_app (requestData : string) (l1 l2 : list string) :
  feed s disk requestData (l1 ++ l2) =
    ((feed s disk (feed s disk requestData l1).1 l2).1,
     (feed s disk requestData l1).2 ++ (feed s disk (feed s disk requestData l1).1 l2).2).
Proof.
  revert requestData. induction l1 as [| c r IH]; intros requestData.
  - simpl. by destruct (feed s disk requestData l2).
  - cbn [feed app]. destruct (on_data s disk requestData c) as [b e].
    rewrite IH. destruct (feed s disk b r) as [b1 e1]. simpl.
    destruct (feed s disk b1 l2) as [b2 e2]. simpl. by rewrite app_assoc.
Qed.


End HandlerFacts.

(** ** The wire protocol: announce, then request *)

(** One exchange: ["f1"] is announced, and asked for in two chunks. *)
Example one_exchange :
  Dht.connection
    (Dht.announceFile Dht.create "2025-01-01T00:00:00.000Z" (Resolved tt)
       "f1" "/uploads/a.txt" "a.txt" (Js.Int 2)).1
    {[ "/uploads/a.txt"%string := File (Buffer.utf8 "hi") ]}
    ["f"%string; Downloader.request "1"]
  = (Downloader.request "f1",
     [ Dht.Console (log "Requested File ID: f1");
       Dht.ReadFile "/uploads/a.txt";
       Dht.ConnWrite
         [ ("success", JBool true); ("fileId", JStr "f1"); ("fileName", JStr "a.txt");
           ("size", JNum 2); ("mimeType", JStr "text/plain");
           ("serverAddress", JStr "127.0.0.1:3000"); ("content", JStr "aGk=") ]%string;
       Dht.Console (log "Sent file: a.txt (2 bytes)");
       Dht.EndAfter 100 ]).
Proof. vm_compute. reflexivity. Qed.







(** ** The wire protocol: how much is buffered, how often it answers *)




(** C5 (counterexample).  A chunk that arrives after the request line, before
    the timer of 100 ms has run, is answered as well: two documents are
    written on the one connection, the second for the identifier made of all
    the text received. *)
Lemma second_chunk_is_answered :
  Dht.written (Dht.connection Dht.create ∅ [Downloader.request "f1"; "x"%string]).2
  = [ Dht.error_response "File not found" "No file with ID: f1";
      Dht.error_response "File not found"
        ("No file with ID: " +:+ Downloader.request "f1" +:+ "x") ].
Proof. vm_compute. reflexivity. Qed.

(** C5 (amended).  Nothing is written before the first data event that brings
    a newline; that event and every data event after it are each answered
    with one document and one closing scheduled 100 ms later.  When no data
    arrives after the request line, this is one document and one closing. *)
Theorem every_chunk_from_newline_on_is_answered
    (s : Dht.DHTService) (disk : gmap string Entry)
    (before : list string) (c : string) (after : list string) :
  Js.includes Js.LF (Js.join before) = false ->
  Js.includes Js.LF c = true ->
  (Dht.connection s disk before).2 = []
  /\ length (Dht.written (Dht.connection s disk (before ++ c :: after)).2)
     = S (length after)
  /\ Dht.closings (Dht.connection s disk (before ++ c :: after)).2
     = replicate (S (length after)) 100.
Proof.
  intros Hb Hc. unfold Dht.connection.
  rewrite (feed_quiet s disk EmptyString before Hb). split; [done |].
  rewrite feed_app, (feed_quiet s disk EmptyString before Hb). cbn [fst snd app].
  change (EmptyString +:+ Js.join before) with (Js.join before).
  cbn [Dht.feed]. unfold Dht.on_data.
  assert (Harm : Js.includes Js.LF (Js.join before +:+ c) = true).
  { by rewrite includes_app, Hc, orb_true_r. }
  rewrite Harm.
  destruct (feed_armed s disk (Js.join before +:+ c) after Harm) as [Hw Hcl].
  destruct (Dht.feed s disk (Js.join before +:+ c) after) as [final later].
  cbn [fst snd] in *.
  destruct (dispatch_once s disk (Js.join before +:+ c)) as [Hw1 Hcl1].
  rewrite written_app, closings_app, length_app, Hw1, Hcl1, Hw, Hcl. done.
Qed.

Lemma every_chunk_from_newline_on_is_answered_witness :
  (Dht.connection Dht.create ∅ ["f"%string]).2 = []
  /\ length (Dht.written
       (Dht.connection Dht.create ∅ (["f"%string] ++ Downloader.request "1" :: [])).2)
     = 1%nat
  /\ Dht.closings
       (Dht.connection Dht.create ∅ (["f"%string] ++ Downloader.request "1" :: [])).2
     = replicate 1 100.
Proof.
  apply (every_chunk_from_newline_on_is_answered Dht.create ∅ ["f"%string]
           (Downloader.request "1") []).
  - reflexivity.
  - reflexivity.
Defined.

(** ** The metadata store *)




(** ** The rendezvous node *)


(** The test vectors of FIPS 180-4 for the empty message and for "abc". *)
Example sha256_empty :
  Buffer.hex (Sha256.sha256 [])
  = "e3b0c44298fc1c149afbf4c8996fb92427ae41e4649b934ca495991b7852b855"%string.
Proof. vm_compute. reflexivity. Qed.

Example sha256_abc :
  Buffer.hex (Sha256.sha256 (Buffer.utf8 "abc"))
  = "ba7816bf8f01cfea414140de5dae2223b00361a396177a9cb410ff61f20015ad"%string.
Proof. vm_compute. reflexivity. Qed.

(** A message of 56 bytes, padded over two blocks, and an identifier as the
    upload handler makes them. *)
Example sha256_two_blocks :
  Buffer.hex (Sha256.sha256
                (Buffer.utf8 "abcdbcdecdefdefgefghfghighijhijkijkljklmklmnlmnomnopnopq"))
  = "248d6a61d20638b8e5c026930c3e6039a33ce45964ff2167f6ecedd419db06c1"%string.
Proof. vm_compute. reflexivity. Qed.

Example topic_of_a_uuid :
  Buffer.hex (Dht.deriveTopic "3f2b8c1e-9a4d-4e6f-8b7a-1c2d3e4f5a6b")
  = "adc7eac0fe2e503480ea1811aa0508137842145b17bc3bb1844dcc814bb46353"%string.
Proof. vm_compute. reflexivity. Qed.

(** Joining a topic the swarm has joined changes nothing. *)
Lemma join_again (t : list byte) (X : gset (list byte)) : {[t]} ∪ ({[t]} ∪ X) = {[t]} ∪ X.
Proof. apply set_eq. intros x. rewrite !elem_of_union. tauto. Qed.


(** C8.  A second [announceFile] for the same identifier leaves the service
    and the promise exactly as the second call alone would: the entry of the
    identifier is overwritten in both maps, the swarm holds the same topics as
    before the second call, the promise resolves when the flush does, and
    [hasFile] is true. *)
Theorem announce_again_overwrites
    (s : Dht.DHTService) (f : string)
    (now1 : string) (flush1 : Outcome unit) (p1 n1 : string) (size1 : Js.number)
    (now2 : string) (flush2 : Outcome unit) (p2 n2 : string) (size2 : Js.number) :
  Dht.announceFile (Dht.announceFile s now1 flush1 f p1 n1 size1).1 now2 flush2 f p2 n2 size2
    = Dht.announceFile s now2 flush2 f p2 n2 size2
  /\ (Dht.announceFile (Dht.announceFile s now1 flush1 f p1 n1 size1).1
        now2 (Resolved tt) f p2 n2 size2).2
     = Resolved (Dht.mkAnnounced f n2 (Buffer.hex (Dht.deriveTopic f)) Constants.SERVER_ADDRESS)
  /\ Dht.swarm (Dht.announceFile (Dht.announceFile s now1 flush1 f p1 n1 size1).1
                  now2 flush2 f p2 n2 size2).1
     = Dht.swarm (Dht.announceFile s now1 flush1 f p1 n1 size1).1
  /\ Dht.deriveTopic f ∈ Dht.swarm (Dht.announceFile s now1 flush1 f p1 n1 size1).1
  /\ Dht.hasFile (Dht.announceFile (Dht.announceFile s now1 flush1 f p1 n1 size1).1
                    now2 flush2 f p2 n2 size2).1 f = true
  /\ Dht.getFilePath (Dht.announceFile (Dht.announceFile s now1 flush1 f p1 n1 size1).1
                        now2 flush2 f p2 n2 size2).1 f = Some p2.
Proof.
  unfold Dht.announceFile, Dht.hasFile, Dht.getFilePath.
  destruct flush1, flush2;
    cbn [fst snd Dht.storedFiles Dht.swarm Dht.fileIdToPath];
    rewrite !insert_insert_eq, !join_again, !lookup_insert_eq;
    repeat split; try done; apply elem_of_union_l, elem_of_singleton; done.
Qed.

(** C10.  In every service a process can hold, the two maps have the same
    keys, [getFilePath] gives the [filePath] of what [getFileMetadata] gives,
    and [hasFile] is true exactly for the identifiers with metadata. *)
Theorem maps_stay_synchronized (s : Dht.DHTService) :
  Dht.reachable s -> Dht.synchronized s.
Proof.
  induction 1 as [| s now flush f p name size Hr IH]; intros fileId.
  - unfold Dht.getFilePath, Dht.getFileMetadata, Dht.hasFile. simpl.
    rewrite !lookup_empty. repeat split; try done; by intros [x Hx].
  - destruct (IH fileId) as (Hk & Hp & Hh).
    assert (Hst : Dht.announceFile s now flush f p name size
                  = (Dht.mkDHTService ({[Dht.deriveTopic f]} ∪ Dht.swarm s)
                       (<[f := Dht.mkFileMetadata p name (Dht.deriveTopic f) size now
                                 Constants.SERVER_ADDRESS]> (Dht.storedFiles s))
                       (<[f := p]> (Dht.fileIdToPath s)),
                     (Dht.announceFile s now flush f p name size).2)).
    { unfold Dht.announceFile. by destruct flush. }
    rewrite Hst. unfold Dht.getFilePath, Dht.getFileMetadata, Dht.hasFile in *.
    cbn [fst Dht.storedFiles Dht.fileIdToPath].
    destruct (decide (f = fileId)) as [-> | Hne].
    + rewrite !lookup_insert_eq. repeat split; eauto.
    + rewrite !lookup_insert_ne by done. repeat split; tauto.
Qed.

Lemma maps_stay_synchronized_witness :
  Dht.synchronized
    (Dht.announceFile
       (Dht.announceFile Dht.create "2025-01-01T00:00:00.000Z" (Resolved tt)
          "f1" "/uploads/a.txt" "a.txt" (Js.Int 2)).1
       "2025-01-01T00:00:01.000Z" (Rejected "flush failed")
       "f2" "/uploads/b.txt" "b.txt" Js.NaN).1.
Proof.
  apply maps_stay_synchronized.
  apply Dht.reachable_announce, Dht.reachable_announce, Dht.reachable_create.
Defined.

(** ** Rehydration *)

Section RehydrationFacts.
Import Server.
Variables (disk : gmap string Entry) (net : nat -> string * Outcome unit).

Lemma announces_app (e1 e2 : list Event) : announces (e1 ++ e2) = announces e1 ++ announces e2.
Proof. apply omap_app. Qed.

(** The loop over a list in two parts: the second part is entered, with the
    calls of the first part counted, when the first part ends without a
    rejection. *)
Lemma rehydrate_files_app (pre rest : list Db.FileRecord) :
  forall (k : nat) (s s1 : Dht.DHTService) (ev1 : list Event),
    rehydrate_files disk net k pre s = (s1, ev1, Resolved tt) ->
    rehydrate_files disk net k (pre ++ rest) s =
      let '(s2, ev2, end_) :=
        rehydrate_files disk net (k + length (announces ev1)) rest s1 in
      (s2, ev1 ++ ev2, end_).
Proof.
  induction pre as [| file pre IH]; intros k s s1 ev1 H.
  - simpl in H. injection H as <- <-. simpl. rewrite Nat.add_0_r.
    by destruct (rehydrate_files disk net k rest s) as [[s2 ev2] end_].
  - cbn [rehydrate_files app] in *.
    destruct (Fs.existsSync disk (Db.filePath file)).
    + destruct (Dht.announceFile s (net k).1 (net k).2 (Db.fileId file) (Db.filePath file)
                  (Db.fileName file) (Js.parseInt (Db.fileSize file))) as [s' [a | m]];
        [| discriminate].
      destruct (rehydrate_files disk net (S k) pre s') as [[s'' ev] end_] eqn:Hpre.
      injection H as <- <- ->.
      rewrite (IH (S k) s' s'' ev Hpre).
      simpl. rewrite Nat.add_succ_r.
      by destruct (rehydrate_files disk net (S (k + length (announces ev))) rest s'')
        as [[s2 ev2] end2].
    + destruct (rehydrate_files disk net k pre s) as [[s' ev] end_] eqn:Hpre.
      injection H as <- <- ->.
      rewrite (IH k s s' ev Hpre). simpl.
      by destruct (rehydrate_files disk net (k + length (announces ev)) rest s')
        as [[s2 ev2] end2].
Qed.

Lemma announceFile_resolves (s : Dht.DHTService) (now : string) (u : unit)
    (fileId filePath fileName : string) (fileSize : Js.number) :
  exists s' a, Dht.announceFile s now (Resolved u) fileId filePath fileName fileSize
               = (s', Resolved a).
Proof. unfold Dht.announceFile. eauto. Qed.

(** When every flush resolves, the loop handles every record, in order. *)
Lemma rehydrate_files_all (files : list Db.FileRecord) :
  (forall k, exists u, (net k).2 = Resolved u) ->
  forall (k : nat) (s : Dht.DHTService),
    exists s', rehydrate_files disk net k files s
               = (s', concat (map (record_events disk) files), Resolved tt).
Proof.
  intros Hnet. induction files as [| file files IH]; intros k s; [by exists s |].
  cbn [rehydrate_files map concat]. unfold record_events at 1.
  destruct (Fs.existsSync disk (Db.filePath file)).
  - destruct (Hnet k) as [u Hu]. rewrite Hu.
    destruct (announceFile_resolves s (net k).1 u (Db.fileId file) (Db.filePath file)
                (Db.fileName file) (Js.parseInt (Db.fileSize file))) as (s' & a & ->).
    destruct (IH (S k) s') as [s'' ->]. by exists s''.
  - destruct (IH k s) as [s' ->]. by exists s'.
Qed.

Lemma announces_record_events (files : list Db.FileRecord) :
  announces (concat (map (record_events disk) files))
  = map (fun file => (Db.fileId file, Db.filePath file, Db.fileName file,
                      Js.parseInt (Db.fileSize file)))
        (filter (fun file => Fs.existsSync disk (Db.filePath file) = true) files).
Proof.
  induction files as [| file files IH]; [done |].
  cbn [map concat]. rewrite announces_app, IH, filter_cons. unfold record_events.
  destruct (Fs.existsSync disk (Db.filePath file)) eqn:He.
  - rewrite decide_True by done. done.
  - rewrite decide_False by done. done.
Qed.

Lemma missing_record_events (files : list Db.FileRecord) :
  List.filter is_missing_line (concat (map (record_events disk) files))
  = map (fun file => Out (log ("File missing on disk: " +:+ Db.fileName file)))
        (filter (fun file => Fs.existsSync disk (Db.filePath file) = false) files).
Proof.
  induction files as [| file files IH]; [done |].
  cbn [map concat]. rewrite List.filter_app, IH, filter_cons. unfold record_events.
  destruct (Fs.existsSync disk (Db.filePath file)) eqn:He.
  - rewrite decide_False by done. done.
  - rewrite decide_True by done. cbn [List.filter is_missing_line app].
    replace (String.prefix "File missing on disk: "
               ("File missing on disk: " +:+ Db.fileName file)) with true; [done |].
    symmetry. change ("File missing on disk: " +:+ Db.fileName file)%string
      with (String "F" (String "i" (String "l" (String "e" (String " " (String "m"
           (String "i" (String "s" (String "s" (String "i" (String "n" (String "g"
           (String " " (String "o" (String "n" (String " " (String "d" (String "i"
           (String "s" (String "k" (String ":" (String " " (Db.fileName file))))))))))))))))))))))).
    by destruct (Db.fileName file).
Qed.

(** The draft handles no record: the property it tests is one the records do
    not have. *)
Lemma draft_files_skips (files : list Db.FileRecord) (k : nat) (s : Dht.DHTService) :
  draft_files disk net k files s
  = (s, map (fun file => Out (log ("Skipping invalid file entry with missing fileId "
                                     +:+ Db.fileName file))) files,
     Resolved tt).
Proof.
  induction files as [| file files IH]; [done |].
  cbn [draft_files map].
  change (not_ (property file "fieldId")) with true. cbn iota. by rewrite IH.
Qed.

End RehydrationFacts.

(** C1 (the defect).  The draft of [rehydrateDHT] is given two records whose
    files are both on the disk, on a network where every flush resolves: it
    announces nothing and leaves the service empty, where [rehydrateDHT] of
    [server.js] announces both records. *)
Theorem draft_rehydration_announces_nothing :
  Server.announces
    (Server.draft_rehydrateDHT Scenario.two_records Scenario.both_files
       Scenario.calm Dht.create).1.2 = []
  /\ (Server.draft_rehydrateDHT Scenario.two_records Scenario.both_files
        Scenario.calm Dht.create).1.1.2 = Dht.create
  /\ Server.announces
       (Server.rehydrateDHT Scenario.two_records Scenario.both_files
          Scenario.calm Dht.create).1.2
     = [ ("f1", "/uploads/a.txt", "a.txt", Js.Int 2);
         ("f2", "/uploads/b.txt", "b.txt", Js.Int 3) ]%string.
Proof. vm_compute. repeat split. Qed.

(** Console lines are no calls. *)
Lemma announces_outs (lines : list Line) : Server.announces (map Server.Out lines) = [].
Proof. induction lines as [| l r IH]; [done | apply IH]. Qed.

(** The draft announces nothing whatever the records, the disk and the
    network are. *)
Lemma draft_rehydration_never_announces
    (c : Db.Cluster) (disk : gmap string Entry) (net : nat -> string * Outcome unit)
    (s : Dht.DHTService) :
  Server.announces (Server.draft_rehydrateDHT c disk net s).1.2 = []
  /\ (Server.draft_rehydrateDHT c disk net s).1.1.2 = s.
Proof.
  unfold Server.draft_rehydrateDHT, Db.getAllFiles, Db.execute.
  destruct (Db.fault c) as [message |]; [done |].
  destruct (map Db.toRecord (map snd (map_to_list (Db.files c)))) as [| file files] eqn:Hf;
    [done |].
  rewrite draft_files_skips. cbn [fst snd]. split; [| done].
  rewrite <- (map_map (fun f => log ("Skipping invalid file entry with missing fileId "
                                       +:+ Db.fileName f)) Server.Out).
  match goal with
  | |- Server.announces (?a :: map Server.Out ?l ++ ?f :: map Server.Out ?m ++ ?e) = _ =>
      change (a :: map Server.Out l ++ f :: map Server.Out m ++ e)
        with ([a] ++ map Server.Out l ++ [f] ++ map Server.Out m ++ e)
  end.
  by rewrite !announces_app, !announces_outs.
Qed.

(** The loop of [server.js] prints one warning for each record without a
    file. *)
Lemma prelude_has_no_warning (c : Db.Cluster) (x : string) :
  List.filter Server.is_missing_line
    (map Server.Out (Db.getAllFiles c).1.2 ++ [Server.Out (log ("Found " +:+ x))]) = [].
Proof.
  unfold Db.getAllFiles, Db.execute. by destruct (Db.fault c).
Qed.

(** When [getAllFiles] resolves, the cluster is in reach and the records are
    those of its table. *)
Lemma getAllFiles_resolved (c : Db.Cluster) (files : list Db.FileRecord) :
  (Db.getAllFiles c).2 = Resolved files ->
  Db.fault c = None /\ files = map Db.toRecord (map snd (map_to_list (Db.files c))).
Proof.
  unfold Db.getAllFiles, Db.execute.
  destruct (Db.fault c); cbn [snd]; [discriminate |].
  intros H. by injection H as <-.
Qed.

(** The records with a file and the records without are all the records. *)
Lemma present_or_missing (disk : gmap string Entry) (files : list Db.FileRecord) :
  (length (filter (fun file => Fs.existsSync disk (Db.filePath file) = true) files)
   + length (filter (fun file => Fs.existsSync disk (Db.filePath file) = false) files)
   = length files)%nat.
Proof.
  induction files as [| file files IH]; [done |].
  rewrite !filter_cons. destruct (Fs.existsSync disk (Db.filePath file)).
  - rewrite decide_True, decide_False by done. simpl. lia.
  - rewrite decide_False, decide_True by done. simpl. lia.
Qed.

(** The pass of [server.js] when every flush resolves. *)
Lemma rehydrateDHT_calm
    (c : Db.Cluster) (disk : gmap string Entry) (net : nat -> string * Outcome unit)
    (s : Dht.DHTService) (files : list Db.FileRecord) :
  (Db.getAllFiles c).2 = Resolved files ->
  (forall k, exists u, (net k).2 = Resolved u) ->
  Server.announces (Server.rehydrateDHT c disk net s).1.2
    = map (fun file => (Db.fileId file, Db.filePath file, Db.fileName file,
                        Js.parseInt (Db.fileSize file)))
          (filter (fun file => Fs.existsSync disk (Db.filePath file) = true) files)
  /\ List.filter Server.is_missing_line (Server.rehydrateDHT c disk net s).1.2
     = map (fun file => Server.Out (log ("File missing on disk: " +:+ Db.fileName file)))
           (filter (fun file => Fs.existsSync disk (Db.filePath file) = false) files)
  /\ (Server.rehydrateDHT c disk net s).1.1.1 = c
  /\ (Server.rehydrateDHT c disk net s).2 = Resolved tt.
Proof.
  intros Hlist Hnet. destruct (getAllFiles_resolved c files Hlist) as [Hfault ->].
  pose proof (prelude_has_no_warning c) as Hpre.
  unfold Server.rehydrateDHT, Server.rehydrate_try, Db.getAllFiles, Db.execute in *.
  rewrite Hfault in *. cbn [fst snd] in Hpre.
  remember (map Db.toRecord (map snd (map_to_list (Db.files c)))) as files eqn:Hf.
  destruct files as [| file rest]; [done |].
  destruct (rehydrate_files_all disk net (file :: rest) Hnet 0%nat s) as [s' Hrun].
  rewrite Hrun. cbn [fst snd].
  repeat split.
  - rewrite <- announces_record_events.
    match goal with
    | |- Server.announces (?a :: map Server.Out ?l ++ ?f :: ?ev ++ ?e) = _ =>
        change (a :: map Server.Out l ++ f :: ev ++ e)
          with (map Server.Out [log "Rehydrating DHT from Cassandra database..."]
                  ++ map Server.Out l ++ [f] ++ ev ++ e)
    end.
    rewrite !announces_app, !announces_outs. cbn [Server.announces omap app].
    by rewrite app_nil_r.
  - rewrite <- missing_record_events.
    match goal with
    | |- List.filter _ (?a :: map Server.Out ?l ++ ?f :: ?ev ++ ?e) = _ =>
        change (a :: map Server.Out l ++ f :: ev ++ e)
          with ([a] ++ (map Server.Out l ++ [f]) ++ ev ++ e);
        rewrite (List.filter_app _ [a]), (List.filter_app _ (map Server.Out l ++ [f])),
          (List.filter_app _ ev)
    end.
    rewrite Hpre. cbn [List.filter Server.is_missing_line app].
    by rewrite app_nil_r.
Qed.

(** X1.  [rehydrateDHT] of [server.js] when [getAllFiles] resolves to [files]
    and every flush resolves: one call of [announceFile], with the fields of
    the record, for each record whose file is on the disk, in the order of
    the list; one warning for each record whose file is not; so of N records
    of which M have no file, N - M are announced and M are warned about; the
    cluster is left as it is and the function returns. *)
Theorem rehydration_announces_every_present_record
    (c : Db.Cluster) (disk : gmap string Entry) (net : nat -> string * Outcome unit)
    (s : Dht.DHTService) (files : list Db.FileRecord) :
  (Db.getAllFiles c).2 = Resolved files ->
  (forall k, exists u, (net k).2 = Resolved u) ->
  Server.announces (Server.rehydrateDHT c disk net s).1.2
    = map (fun file => (Db.fileId file, Db.filePath file, Db.fileName file,
                        Js.parseInt (Db.fileSize file)))
          (filter (fun file => Fs.existsSync disk (Db.filePath file) = true) files)
  /\ List.filter Server.is_missing_line (Server.rehydrateDHT c disk net s).1.2
     = map (fun file => Server.Out (log ("File missing on disk: " +:+ Db.fileName file)))
           (filter (fun file => Fs.existsSync disk (Db.filePath file) = false) files)
  /\ length (Server.announces (Server.rehydrateDHT c disk net s).1.2)
     = (length files
        - length (filter (fun file => Fs.existsSync disk (Db.filePath file) = false) files))%nat
  /\ length (List.filter Server.is_missing_line (Server.rehydrateDHT c disk net s).1.2)
     = length (filter (fun file => Fs.existsSync disk (Db.filePath file) = false) files)
  /\ (Server.rehydrateDHT c disk net s).1.1.1 = c
  /\ (Server.rehydrateDHT c disk net s).2 = Resolved tt.
Proof.
  intros Hlist Hnet.
  destruct (rehydrateDHT_calm c disk net s files Hlist Hnet) as (Ha & Hm & Hc & Hr).
  pose proof (present_or_missing disk files) as Hall.
  repeat split; try done.
  - rewrite Ha, length_map. lia.
  - by rewrite Hm, length_map.
Qed.

Lemma rehydration_announces_every_present_record_witness :
  Server.announces
    (Server.rehydrateDHT Scenario.two_records Scenario.first_file_only
       Scenario.calm Dht.create).1.2
    = [ ("f1", "/uploads/a.txt", "a.txt", Js.Int 2) ]%string
  /\ List.filter Server.is_missing_line
       (Server.rehydrateDHT Scenario.two_records Scenario.first_file_only
          Scenario.calm Dht.create).1.2
     = [ Server.Out (log "File missing on disk: b.txt") ]
  /\ length (Server.announces
               (Server.rehydrateDHT Scenario.two_records Scenario.first_file_only
                  Scenario.calm Dht.create).1.2) = (2 - 1)%nat
  /\ length (List.filter Server.is_missing_line
               (Server.rehydrateDHT Scenario.two_records Scenario.first_file_only
                  Scenario.calm Dht.create).1.2) = 1%nat
  /\ (Server.rehydrateDHT Scenario.two_records Scenario.first_file_only
        Scenario.calm Dht.create).1.1.1 = Scenario.two_records
  /\ (Server.rehydrateDHT Scenario.two_records Scenario.first_file_only
        Scenario.calm Dht.create).2 = Resolved tt.
Proof.
  apply (rehydration_announces_every_present_record Scenario.two_records
           Scenario.first_file_only Scenario.calm Dht.create
           [ Db.mkFileRecord "f1" "/uploads/a.txt" "a.txt" "2" 0;
             Db.mkFileRecord "f2" "/uploads/b.txt" "b.txt" "3" 0 ]).
  - vm_compute. reflexivity.
  - intros k. exists tt. reflexivity.
Defined.

(** C2 (counterexample).  Two records, both with their file on the disk; the
    flush of the first [announceFile] rejects.  The pass ends there: the
    second record is neither announced nor mentioned, and one error line is
    printed for the pass. *)
Lemma rejected_announce_ends_the_pass :
  (Server.rehydrateDHT Scenario.two_records Scenario.both_files
     Scenario.first_rejects Dht.create).1.2
  = [ Server.Out (log "Rehydrating DHT from Cassandra database...");
      Server.Out (log "Retrieving all files from Cassandra...");
      Server.Out (log "Retrieved 2 files from database");
      Server.Out (log "Found 2 file(s) in database");
      Server.Announce "f1" "/uploads/a.txt" "a.txt" (Js.Int 2);
      Server.Out (error "Error during DHT rehydration: flush failed") ]
  /\ Fs.existsSync Scenario.both_files "/uploads/b.txt" = true
  /\ Dht.hasFile (Server.rehydrateDHT Scenario.two_records Scenario.both_files
                    Scenario.first_rejects Dht.create).1.1.2 "f2" = false.
Proof. vm_compute. repeat split. Qed.

(** C2 (amended).  When [announceFile] rejects for a record, the pass ends
    with that record: the records before it have been handled, the call for
    it is the last event but the one error line printed by the [catch], the
    records after it are not handled, and [rehydrateDHT] returns without
    throwing, the cluster left as it is. *)
Theorem rehydration_stops_at_the_first_rejection
    (c : Db.Cluster) (disk : gmap string Entry) (net : nat -> string * Outcome unit)
    (s s1 : Dht.DHTService) (pre post : list Db.FileRecord) (file : Db.FileRecord)
    (ev1 : list Server.Event) (message : string) :
  (Db.getAllFiles c).2 = Resolved (pre ++ file :: post) ->
  Server.rehydrate_files disk net 0 pre s = (s1, ev1, Resolved tt) ->
  Fs.existsSync disk (Db.filePath file) = true ->
  (net (length (Server.announces ev1))).2 = Rejected message ->
  exists prelude,
    Server.announces prelude = []
    /\ Server.rehydrateDHT c disk net s
       = (c,
          (Dht.announceFile s1 (net (length (Server.announces ev1))).1 (Rejected message)
             (Db.fileId file) (Db.filePath file) (Db.fileName file)
             (Js.parseInt (Db.fileSize file))).1,
          prelude ++ ev1
            ++ [ Server.Announce (Db.fileId file) (Db.filePath file) (Db.fileName file)
                   (Js.parseInt (Db.fileSize file));
                 Server.Out (error ("Error during DHT rehydration: " +:+ message)) ],
          Resolved tt).
Proof.
  intros Hlist Hpre Hexists Hnet.
  destruct (getAllFiles_resolved c _ Hlist) as [Hfault Hfiles]. symmetry in Hfiles.
  exists (map Server.Out
            [ log "Rehydrating DHT from Cassandra database...";
              log "Retrieving all files from Cassandra...";
              log ("Retrieved " +:+ Db.decimal (Z.of_nat (length (pre ++ file :: post)))
                     +:+ " files from database");
              log ("Found " +:+ Db.decimal (Z.of_nat (length (pre ++ file :: post)))
                     +:+ " file(s) in database") ]).
  split; [apply announces_outs |].
  unfold Server.rehydrateDHT, Server.rehydrate_try, Db.getAllFiles, Db.execute.
  rewrite Hfault, Hfiles.
  destruct (pre ++ file :: post) as [| x xs] eqn:E; [by destruct pre |].
  rewrite <- E.
  rewrite (rehydrate_files_app disk net pre (file :: post) 0%nat s s1 ev1 Hpre).
  cbn [Server.rehydrate_files Nat.add]. rewrite Hexists.
  unfold Dht.announceFile. rewrite Hnet. cbn [fst snd map app].
  by rewrite app_nil_r, <- app_assoc.
Qed.

Lemma rehydration_stops_at_the_first_rejection_witness :
  exists prelude,
    Server.announces prelude = []
    /\ Server.rehydrateDHT Scenario.two_records Scenario.both_files
         Scenario.first_rejects Dht.create
       = (Scenario.two_records,
          (Dht.announceFile Dht.create
             (Scenario.first_rejects (length (Server.announces []))).1
             (Rejected "flush failed")
             "f1" "/uploads/a.txt" "a.txt" (Js.parseInt "2")).1,
          prelude ++ []
            ++ [ Server.Announce "f1" "/uploads/a.txt" "a.txt" (Js.parseInt "2");
                 Server.Out (error ("Error during DHT rehydration: " +:+ "flush failed")) ],
          Resolved tt).
Proof.
  apply (rehydration_stops_at_the_first_rejection Scenario.two_records Scenario.both_files
           Scenario.first_rejects Dht.create Dht.create []
           [Db.mkFileRecord "f2" "/uploads/b.txt" "b.txt" "3" 0]
           (Db.mkFileRecord "f1" "/uploads/a.txt" "a.txt" "2" 0) [] "flush failed").
  - vm_compute. reflexivity.
  - reflexivity.
  - vm_compute. reflexivity.
  - reflexivity.
Defined.

(** X2.  Whatever the pass meets, start-up goes on to listen once
    [initializeDatabase] has resolved. *)
Lemma startServer_listens_after_initialize
    (c c' : Db.Cluster) (disk : gmap string Entry) (net : nat -> string * Outcome unit)
    (s : Dht.DHTService) :
  Db.fault c = None ->
  exists c'' s' events, Server.startServer c c' disk net s = Server.Listening c'' s' events.
Proof.
  intros H. unfold Server.startServer, Server.initializeDatabase, Server.rehydrateDHT.
  rewrite H.
  destruct (Server.rehydrate_try c' disk net s) as [[[c'' s'] events] [u | m]]; eauto.
Qed.

Lemma startServer_listens_after_initialize_witness :
  exists c'' s' events,
    Server.startServer Scenario.two_records Scenario.two_records Scenario.both_files
      Scenario.first_rejects Dht.create
    = Server.Listening c'' s' events.
Proof.
  apply startServer_listens_after_initialize. reflexivity.
Defined.

(** ** MIME types *)

(** The two examples of the specification, a name in capitals, and a name
    that is only an extension. *)
Example mime_examples :
  Mime.getMimeType "report.pdf" = "application/pdf"%string
  /\ Mime.getMimeType "x.unknownext" = "application/octet-stream"%string
  /\ Mime.getMimeType "PHOTO.JPG" = "image/jpeg"%string
  /\ Mime.getMimeType ".txt" = "application/octet-stream"%string.
Proof. vm_compute. repeat split. Qed.

(** * Further properties of the code *)

(** ** Numbers in decimal *)

Section DecimalFacts.
Import Js.




End DecimalFacts.




(** ** The metadata store: what is written is what is read *)

Section StoreFacts.

Lemma store_in_reach (c : Db.Cluster) (fileId filePath fileName : string) (fileSize : Z) :
  Db.fault c = None ->
  exists lines,
    Db.storeFileMetadata c fileId filePath fileName fileSize
    = (Db.mkCluster None
         (<[fileId := Db.mkRow fileId filePath fileName (Some fileSize) (Db.clock c)]>
            (Db.files c))
         (Db.clock c),
       lines, Resolved true).
Proof.
  intros H. unfold Db.storeFileMetadata, Db.execute. rewrite H. eauto.
Qed.

Lemma get_in_reach (c : Db.Cluster) (fileId : string) :
  Db.fault c = None ->
  (Db.getFileMetadata c fileId).2 = Resolved (Db.toRecord <$> Db.files c !! fileId)
  /\ (Db.fileExists c fileId).2 = Resolved (bool_decide (is_Some (Db.files c !! fileId))).
Proof.
  intros H. unfold Db.getFileMetadata, Db.fileExists, Db.execute. rewrite H.
  destruct (Db.files c !! fileId) as [row |]; cbn; split; try done.
Qed.

Lemma delete_in_reach (c : Db.Cluster) (fileId : string) :
  Db.fault c = None ->
  exists lines,
    Db.deleteFileMetadata c fileId
    = (Db.mkCluster None (delete fileId (Db.files c)) (Db.clock c), lines, Resolved true).
Proof.
  intros H. unfold Db.deleteFileMetadata, Db.execute. rewrite H. eauto.
Qed.

(** Every reachable cluster files a row under its own [file_id]. *)
Lemma reachable_well_keyed (c : Db.Cluster) : Tables.reachable c -> Tables.well_keyed c.
Proof.
  induction 1 as [fault clock | c id p n z Hr IH | c id Hr IH | c fault clock Hr IH];
    intros key row.
  - cbn. by rewrite lookup_empty.
  - unfold Db.storeFileMetadata, Db.execute.
    destruct (Db.fault c); cbn [fst Db.files]; [apply IH |].
    destruct (decide (id = key)) as [-> | Hne].
    + rewrite lookup_insert_eq. by intros [= <-].
    + rewrite lookup_insert_ne by done. apply IH.
  - unfold Db.deleteFileMetadata, Db.execute.
    destruct (Db.fault c); cbn [fst Db.files]; [apply IH |].
    destruct (decide (id = key)) as [-> | Hne].
    + by rewrite lookup_delete_eq.
    + rewrite lookup_delete_ne by done. apply IH.
  - cbn. apply IH.
Qed.

End StoreFacts.

(** X5.  put is insert-or-overwrite by [fileId]: on a cluster in reach, the
    record stored under an identifier is the one [getFileMetadata] and
    [fileExists] then find, with the size as decimal text and the time of
    the cluster; the records of the other identifiers are read as before; and
    storing twice under one identifier leaves the table as the second
    [storeFileMetadata] alone does. *)
Theorem stored_record_is_read_back
    (c : Db.Cluster) (fileId filePath fileName : string) (fileSize : Z)
    (filePath0 fileName0 : string) (fileSize0 : Z) :
  Db.fault c = None ->
  (Db.getFileMetadata (Db.storeFileMetadata c fileId filePath fileName fileSize).1.1 fileId).2
    = Resolved (Some (Db.mkFileRecord fileId filePath fileName (Db.decimal fileSize)
                        (Db.clock c)))
  /\ (Db.fileExists (Db.storeFileMetadata c fileId filePath fileName fileSize).1.1 fileId).2
     = Resolved true
  /\ (forall other, other <> fileId ->
        (Db.getFileMetadata (Db.storeFileMetadata c fileId filePath fileName fileSize).1.1
           other).2
        = (Db.getFileMetadata c other).2)
  /\ (Db.storeFileMetadata
        (Db.storeFileMetadata c fileId filePath0 fileName0 fileSize0).1.1
        fileId filePath fileName fileSize).1.1
     = (Db.storeFileMetadata c fileId filePath fileName fileSize).1.1.
Proof.
  intros H.
  destruct (store_in_reach c fileId filePath fileName fileSize H) as [l1 ->].
  destruct (store_in_reach c fileId filePath0 fileName0 fileSize0 H) as [l0 ->].
  cbn [fst].
  match goal with |- context [Db.getFileMetadata ?c' fileId] => set (c1 := c') end.
  assert (H1 : Db.fault c1 = None) by done.
  repeat split.
  - rewrite (proj1 (get_in_reach c1 fileId H1)). cbn [Db.files c1].
    by rewrite lookup_insert_eq.
  - rewrite (proj2 (get_in_reach c1 fileId H1)). cbn [Db.files c1].
    by rewrite lookup_insert_eq.
  - intros other Hne.
    rewrite (proj1 (get_in_reach c1 other H1)), (proj1 (get_in_reach c other H)).
    cbn [Db.files c1]. by rewrite lookup_insert_ne.
  - match goal with |- context [Db.storeFileMetadata ?c' _ _ _ _] => set (c0 := c') end.
    destruct (store_in_reach c0 fileId filePath fileName fileSize eq_refl) as [l ->].
    cbn [fst Db.files Db.clock c0 c1]. by rewrite insert_insert_eq.
Qed.

Lemma stored_record_is_read_back_witness :
  (Db.getFileMetadata
     (Db.storeFileMetadata Scenario.two_records "f1" "/uploads/c.txt" "c.txt" 7).1.1 "f1").2
    = Resolved (Some (Db.mkFileRecord "f1" "/uploads/c.txt" "c.txt" (Db.decimal 7)
                        (Db.clock Scenario.two_records)))
  /\ (Db.fileExists
        (Db.storeFileMetadata Scenario.two_records "f1" "/uploads/c.txt" "c.txt" 7).1.1
        "f1").2 = Resolved true
  /\ (forall other, other <> "f1"%string ->
        (Db.getFileMetadata
           (Db.storeFileMetadata Scenario.two_records "f1" "/uploads/c.txt" "c.txt" 7).1.1
           other).2
        = (Db.getFileMetadata Scenario.two_records other).2)
  /\ (Db.storeFileMetadata
        (Db.storeFileMetadata Scenario.two_records "f1" "/uploads/a.txt" "a.txt" 2).1.1
        "f1" "/uploads/c.txt" "c.txt" 7).1.1
     = (Db.storeFileMetadata Scenario.two_records "f1" "/uploads/c.txt" "c.txt" 7).1.1.
Proof.
  apply (stored_record_is_read_back Scenario.two_records "f1" "/uploads/c.txt" "c.txt" 7
           "/uploads/a.txt" "a.txt" 2).
  reflexivity.
Defined.

(** X6.  delete removes the record of its identifier and no other: on a
    cluster in reach [deleteFileMetadata] resolves to true whether or not
    there was a record, the identifier is then unknown to [getFileMetadata]
    and [fileExists], the records of the other identifiers are read as
    before, and deleting an identifier without a record changes nothing. *)
Theorem deleted_record_is_gone (c : Db.Cluster) (fileId : string) :
  Db.fault c = None ->
  (Db.deleteFileMetadata c fileId).2 = Resolved true
  /\ (Db.getFileMetadata (Db.deleteFileMetadata c fileId).1.1 fileId).2 = Resolved None
  /\ (Db.fileExists (Db.deleteFileMetadata c fileId).1.1 fileId).2 = Resolved false
  /\ (forall other, other <> fileId ->
        (Db.getFileMetadata (Db.deleteFileMetadata c fileId).1.1 other).2
        = (Db.getFileMetadata c other).2)
  /\ (Db.files c !! fileId = None -> (Db.deleteFileMetadata c fileId).1.1 = c).
Proof.
  intros H. destruct (delete_in_reach c fileId H) as [l ->]. cbn [fst snd].
  match goal with |- context [Db.getFileMetadata ?c' fileId] => set (c1 := c') end.
  assert (H1 : Db.fault c1 = None) by done.
  repeat split.
  - rewrite (proj1 (get_in_reach c1 fileId H1)). cbn [Db.files c1].
    by rewrite lookup_delete_eq.
  - rewrite (proj2 (get_in_reach c1 fileId H1)). cbn [Db.files c1].
    by rewrite lookup_delete_eq.
  - intros other Hne.
    rewrite (proj1 (get_in_reach c1 other H1)), (proj1 (get_in_reach c other H)).
    cbn [Db.files c1]. by rewrite lookup_delete_ne.
  - intros Hnone. unfold c1. rewrite delete_id by done.
    destruct c as [f t k]. cbn in *. by subst f.
Qed.

Lemma deleted_record_is_gone_witness :
  (Db.deleteFileMetadata Scenario.two_records "f1").2 = Resolved true
  /\ (Db.getFileMetadata (Db.deleteFileMetadata Scenario.two_records "f1").1.1 "f1").2
     = Resolved None
  /\ (Db.fileExists (Db.deleteFileMetadata Scenario.two_records "f1").1.1 "f1").2
     = Resolved false
  /\ (forall other, other <> "f1"%string ->
        (Db.getFileMetadata (Db.deleteFileMetadata Scenario.two_records "f1").1.1 other).2
        = (Db.getFileMetadata Scenario.two_records other).2)
  /\ (Db.files Scenario.two_records !! "f1"%string = None ->
      (Db.deleteFileMetadata Scenario.two_records "f1").1.1 = Scenario.two_records).
Proof.
  apply (deleted_record_is_gone Scenario.two_records "f1"). reflexivity.
Defined.

(** X7.  On every cluster, in reach or not, [fileExists] resolves to true
    exactly when [getFileMetadata] resolves to a record, and the three reading
    operations leave the cluster as it is. *)
Theorem exists_agrees_with_get (c : Db.Cluster) (fileId : string) :
  ((Db.fileExists c fileId).2 = Resolved true
   <-> exists record, (Db.getFileMetadata c fileId).2 = Resolved (Some record))
  /\ (Db.fileExists c fileId).1.1 = c
  /\ (Db.getFileMetadata c fileId).1.1 = c
  /\ (Db.getAllFiles c).1.1 = c.
Proof.
  unfold Db.fileExists, Db.getFileMetadata, Db.getAllFiles, Db.execute.
  destruct (Db.fault c) as [message |]; cbn [fst snd].
  - repeat split; try done. by intros [r Hr].
  - destruct (Db.files c !! fileId) as [row |]; cbn [option_list fst snd length];
      (split; [| done]); split.
    + eauto.
    + reflexivity.
    + intros H. vm_compute in H. discriminate H.
    + by intros [r Hr].
Qed.



(** X9.  [fileId] is the sole key: in every cluster the operations of the
    module lead to, the record found under an identifier carries that
    identifier, and [getAllFiles] lists no identifier twice. *)
Theorem one_record_per_fileId (c : Db.Cluster) (files : list Db.FileRecord) :
  Tables.reachable c ->
  (Db.getAllFiles c).2 = Resolved files ->
  NoDup (map Db.fileId files)
  /\ forall fileId record,
       (Db.getFileMetadata c fileId).2 = Resolved (Some record) ->
       Db.fileId record = fileId.
Proof.
  intros Hr Hlist. pose proof (reachable_well_keyed c Hr) as Hk.
  destruct (getAllFiles_resolved c files Hlist) as [Hfault ->]. split.
  - rewrite !map_map.
    assert (Heq : map (fun x : string * Db.Row => Db.fileId (Db.toRecord x.2))
                      (map_to_list (Db.files c))
                  = map fst (map_to_list (Db.files c))).
    { apply map_ext_in. intros [key row] Hin. cbn.
      apply list_elem_of_In, elem_of_map_to_list in Hin. by apply Hk. }
    rewrite Heq. exact (NoDup_fst_map_to_list (Db.files c)).
  - intros fileId record Hget. rewrite (proj1 (get_in_reach c fileId Hfault)) in Hget.
    destruct (Db.files c !! fileId) as [row |] eqn:Hrow; [| done].
    injection Hget as <-. cbn. by apply Hk.
Qed.

Lemma one_record_per_fileId_witness :
  NoDup (map Db.fileId
           [ Db.mkFileRecord "f1" "/uploads/a.txt" "a.txt" "2" 0;
             Db.mkFileRecord "f2" "/uploads/b.txt" "b.txt" "3" 0 ])
  /\ forall fileId record,
       (Db.getFileMetadata Scenario.two_records fileId).2 = Resolved (Some record) ->
       Db.fileId record = fileId.
Proof.
  apply (one_record_per_fileId Scenario.two_records).
  - apply (Tables.reachable_store
             (Db.storeFileMetadata (Db.mkCluster None ∅ 0) "f2" "/uploads/b.txt" "b.txt" 3).1.1
             "f1" "/uploads/a.txt" "a.txt" 2).
    apply Tables.reachable_store, Tables.reachable_empty.
  - vm_compute. reflexivity.
Defined.

(** ** The connection handler: what it reads and how it closes *)

Section HandlerMore.
Import Js Dht.
Variables (s : DHTService) (disk : gmap string Entry).

Lemma reads_dispatch (requestData p : string) :
  In p (reads (dispatch s disk requestData)) ->
  exists fileInfo, storedFiles s !! trim requestData = Some fileInfo /\ filePath fileInfo = p.
Proof.
  unfold dispatch.
  destruct (storedFiles s !! trim requestData) as [fileInfo |]; [| by intros []].
  destruct (Fs.readFileSync disk (filePath fileInfo)); cbn; intros [<- | []]; eauto.
Qed.

Lemma feed_reads (chunks : list string) :
  forall (requestData p : string),
    In p (reads (feed s disk requestData chunks).2) ->
    exists fileId fileInfo,
      storedFiles s !! fileId = Some fileInfo /\ filePath fileInfo = p.
Proof.
  induction chunks as [| c r IH]; intros requestData p; [by intros [] |].
  cbn [feed]. unfold on_data.
  destruct (includes LF (requestData +:+ c));
    specialize (IH (requestData +:+ c) p);
    destruct (feed s disk (requestData +:+ c) r) as [final later]; cbn [fst snd] in *.
  - rewrite reads_app, in_app_iff. intros [H | H]; [| by apply IH].
    destruct (reads_dispatch _ _ H) as (fileInfo & Hs & Hp). eauto.
  - apply IH.
Qed.

Lemma feed_closings (chunks : list string) :
  forall requestData : string,
    length (written (feed s disk requestData chunks).2)
      = length (closings (feed s disk requestData chunks).2)
    /\ Forall (fun ms => ms = 100) (closings (feed s disk requestData chunks).2)
    /\ (length (written (feed s disk requestData chunks).2) <= length chunks)%nat.
Proof.
  induction chunks as [| c r IH]; intros requestData; [by repeat split |].
  cbn [feed]. unfold on_data.
  destruct (includes LF (requestData +:+ c));
    specialize (IH (requestData +:+ c));
    destruct (feed s disk (requestData +:+ c) r) as [final later]; cbn [fst snd] in *;
    destruct IH as (Hl & Hf & Hle).
  - destruct (dispatch_once s disk (requestData +:+ c)) as [Hw Hc].
    rewrite written_app, closings_app, !length_app, Hw, Hc. cbn [length].
    repeat split; [lia | | lia]. apply Forall_app. split; [by repeat constructor | done].
  - cbn [app length]. repeat split; [done | done | lia].
Qed.

End HandlerMore.

(** X10.  Whatever a peer sends, the handler reads only files that were
    announced: every path it passes to [fs.readFileSync] is the [filePath] of
    the metadata stored under some identifier. *)
Theorem only_announced_paths_are_read
    (s : Dht.DHTService) (disk : gmap string Entry) (chunks : list string) (p : string) :
  In p (Dht.reads (Dht.connection s disk chunks).2) ->
  exists fileId fileInfo,
    Dht.getFileMetadata s fileId = Some fileInfo /\ Dht.filePath fileInfo = p.
Proof. unfold Dht.connection, Dht.getFileMetadata. apply feed_reads. Qed.

Lemma only_announced_paths_are_read_witness :
  exists fileId fileInfo,
    Dht.getFileMetadata
      (Dht.announceFile Dht.create "2025-01-01T00:00:00.000Z" (Resolved tt)
         "f1" "/uploads/a.txt" "a.txt" (Js.Int 2)).1 fileId = Some fileInfo
    /\ Dht.filePath fileInfo = "/uploads/a.txt"%string.
Proof.
  apply (only_announced_paths_are_read _ ∅ [Downloader.request "f1"; "../../etc/passwd"%string]).
  vm_compute. left. reflexivity.
Defined.

(** X11.  On every connection, whatever arrives, each document written is
    paired with one closing scheduled 100 ms later and no closing is scheduled
    without a document, and there are no more documents than data events. *)
Theorem every_answer_schedules_one_closing
    (s : Dht.DHTService) (disk : gmap string Entry) (chunks : list string) :
  length (Dht.written (Dht.connection s disk chunks).2)
    = length (Dht.closings (Dht.connection s disk chunks).2)
  /\ Forall (fun ms => ms = 100) (Dht.closings (Dht.connection s disk chunks).2)
  /\ (length (Dht.written (Dht.connection s disk chunks).2) <= length chunks)%nat.
Proof. apply feed_closings. Qed.



(** ** Identifiers the controller accepts *)

Section UuidFacts.
Import Js.

Lemma in_class_plain (k : Controller.Class) (a : ascii) :
  Controller.in_class k a = true -> is_white_space a = false.
Proof.
  destruct k, a as [[] [] [] [] [] [] [] []]; vm_compute; congruence.
Qed.

Lemma matches_plain (pattern : list Controller.Class) :
  forall s : string, Controller.matches pattern s = true -> Upload.no_white_space s = true.
Proof.
  induction pattern as [| k pattern IH]; intros [| a r]; cbn; try done.
  intros [Ha Hr]%andb_prop. by rewrite (in_class_plain k a Ha), (IH r Hr).
Qed.

Lemma matches_length (pattern : list Controller.Class) :
  forall s : string, Controller.matches pattern s = true -> String.length s = length pattern.
Proof.
  induction pattern as [| k pattern IH]; intros [| a r]; cbn; try done.
  intros [Ha Hr]%andb_prop. by rewrite (IH r Hr).
Qed.

Lemma plain_trimEnd (s : string) : Upload.no_white_space s = true -> trimEnd s = s.
Proof.
  induction s as [| a r IH]; [done |]. cbn.
  intros [Ha Hr]%andb_prop. rewrite (IH Hr).
  apply negb_true_iff in Ha. rewrite Ha. by destruct r.
Qed.

Lemma plain_trim (s : string) : Upload.no_white_space s = true -> trim s = s.
Proof.
  intros H. unfold trim.
  assert (Hs : trimStart s = s).
  { destruct s as [| a r]; [done |]. cbn in *.
    apply andb_prop in H as [Ha _]. apply negb_true_iff in Ha. by rewrite Ha. }
  rewrite Hs. by apply plain_trimEnd.
Qed.

Lemma plain_one_line (s : string) : Upload.no_white_space s = true -> includes LF s = false.
Proof.
  induction s as [| a r IH]; [done |]. cbn [Upload.no_white_space includes].
  intros [Ha Hr]%andb_prop. destruct (decide (a = LF)) as [-> | Hne]; [| by apply IH].
  by rewrite LF_white in Ha.
Qed.

End UuidFacts.


(** X13.  An identifier the pattern of [retrieveFile] accepts has 36
    characters, none of them white space or a newline: [trim] leaves it as it
    is, so the identifiers of the HTTP interface are asked for on the wire as
    they are. *)
Theorem accepted_identifier_is_one_trimmed_line (fileId : string) :
  Controller.uuidRegex_test fileId = true ->
  String.length fileId = 36%nat
  /\ Js.trim fileId = fileId
  /\ Js.includes Js.LF fileId = false
  /\ Js.trim (Downloader.request fileId) = fileId.
Proof.
  intros H. unfold Controller.uuidRegex_test in H.
  pose proof (matches_plain _ _ H) as Hp.
  repeat split.
  - by rewrite (matches_length _ _ H).
  - by apply plain_trim.
  - by apply plain_one_line.
  - apply trim_line. by apply plain_trim.
Qed.

Lemma accepted_identifier_is_one_trimmed_line_witness :
  String.length "123e4567-e89b-42d3-A456-426614174000" = 36%nat
  /\ Js.trim "123e4567-e89b-42d3-A456-426614174000" = "123e4567-e89b-42d3-A456-426614174000"%string
  /\ Js.includes Js.LF "123e4567-e89b-42d3-A456-426614174000" = false
  /\ Js.trim (Downloader.request "123e4567-e89b-42d3-A456-426614174000")
     = "123e4567-e89b-42d3-A456-426614174000"%string.
Proof.
  apply (accepted_identifier_is_one_trimmed_line "123e4567-e89b-42d3-A456-426614174000").
  vm_compute. reflexivity.
Defined.

(** ** The controller *)

Section ControllerFacts.
Import Controller.


(** What [announceFile] leaves in the two maps, whatever the flush does. *)
Lemma announce_lookup (s : Dht.DHTService) (now : string) (flush : Outcome unit)
    (fileId filePath fileName : string) (fileSize : Js.number) :
  Dht.storedFiles (Dht.announceFile s now flush fileId filePath fileName fileSize).1 !! fileId
    = Some (Dht.mkFileMetadata filePath fileName (Dht.deriveTopic fileId) fileSize now
              Constants.SERVER_ADDRESS)
  /\ Dht.fileIdToPath (Dht.announceFile s now flush fileId filePath fileName fileSize).1
       !! fileId = Some filePath.
Proof.
  unfold Dht.announceFile. destruct flush; cbn [fst Dht.storedFiles Dht.fileIdToPath];
    by rewrite !lookup_insert_eq.
Qed.

Lemma announce_lookup_ne (s : Dht.DHTService) (now : string) (flush : Outcome unit)
    (fileId filePath fileName : string) (fileSize : Js.number) (other : string) :
  fileId <> other ->
  Dht.storedFiles (Dht.announceFile s now flush fileId filePath fileName fileSize).1 !! other
    = Dht.storedFiles s !! other
  /\ Dht.fileIdToPath (Dht.announceFile s now flush fileId filePath fileName fileSize).1
       !! other = Dht.fileIdToPath s !! other.
Proof.
  intros Hne. unfold Dht.announceFile.
  destruct flush; cbn [fst Dht.storedFiles Dht.fileIdToPath];
    by rewrite !lookup_insert_ne.
Qed.

(** In a service a process can hold, the path map holds the path of the
    metadata. *)
Lemma reachable_paths (s : Dht.DHTService) :
  Dht.reachable s ->
  forall fileId, Dht.fileIdToPath s !! fileId = Dht.filePath <$> Dht.storedFiles s !! fileId.
Proof.
  induction 1 as [| s now flush f p name size Hr IH]; intros fileId.
  - cbn. by rewrite !lookup_empty.
  - destruct (decide (f = fileId)) as [-> | Hne].
    + destruct (announce_lookup s now flush fileId p name size) as [-> ->]. done.
    + destruct (announce_lookup_ne s now flush f p name size fileId Hne) as [-> ->].
      apply IH.
Qed.

(** The upload that gets through the store. *)
Lemma uploadFile_stored (c : Db.Cluster) (s : Dht.DHTService) (f : UploadedFile)
    (fileId now : string) (flush : Outcome unit) (uploadedAt : string) :
  Db.fault c = None ->
  (uploadFile c s (Some f) fileId now flush uploadedAt).1
  = (Db.mkCluster None
       (<[fileId := Db.mkRow fileId (path f) (originalname f) (Some (size f)) (Db.clock c)]>
          (Db.files c))
       (Db.clock c),
     (Dht.announceFile s now flush fileId (path f) (originalname f) (Js.Int (size f))).1).
Proof.
  intros Hc. unfold uploadFile.
  destruct (store_in_reach c fileId (path f) (originalname f) (size f) Hc) as [lines ->].
  unfold Dht.announceFile. by destruct flush.
Qed.

End ControllerFacts.

(** X14.  What is uploaded is retrieved.  When the cluster is reached, after
    [uploadFile] of a file that multer has written to the disk and whose name
    a header can hold, [retrieveFile] for the identifier of the upload starts
    the download of that file, from
    the path of the upload and under its original name, with the four headers
    of the file and [X-Storage-Type: cassandra]; it only reads the store, so
    it does so in a process started later too.  This holds although the flush
    of the announce may have failed and the upload been answered with 500
    [Upload failed]: the record is stored, and the file registered in the
    service, before the flush is awaited. *)
Theorem uploaded_file_is_retrieved
    (c : Db.Cluster) (s : Dht.DHTService) (f : Controller.UploadedFile)
    (fileId now : string) (flush : Outcome unit) (uploadedAt : string)
    (disk : gmap string Entry) :
  Db.fault c = None ->
  Controller.uuidRegex_test fileId = true ->
  Fs.existsSync disk (Controller.path f) = true ->
  Controller.header_value_ok (Controller.originalname f) = true ->
  (Controller.retrieveFile
     (Controller.uploadFile c s (Some f) fileId now flush uploadedAt).1.1 disk fileId).2
    = Controller.Download (Controller.path f) (Controller.originalname f)
        [ ("Content-Type", Mime.getMimeType (Controller.originalname f));
          ("Content-Disposition",
           "attachment; filename=" +:+ Controller.quoted (Controller.originalname f));
          ("X-File-ID", fileId);
          ("X-Server-Address", Constants.SERVER_ADDRESS);
          ("X-Storage-Type", "cassandra") ]%string
  /\ Dht.hasFile (Controller.uploadFile c s (Some f) fileId now flush uploadedAt).1.2 fileId
     = true
  /\ (forall message,
        flush = Rejected message ->
        (Controller.uploadFile c s (Some f) fileId now flush uploadedAt).2
        = Controller.Sent 500 (Controller.failure "Upload failed" message [])).
Proof.
  intros Hc Hid Hdisk Hname.
  rewrite (uploadFile_stored c s f fileId now flush uploadedAt Hc). cbn [fst snd].
  repeat split.
  - unfold Controller.retrieveFile. rewrite Hid. cbn [negb].
    unfold Db.getFileMetadata, Db.execute. cbn [Db.fault Db.files].
    rewrite lookup_insert_eq.
    cbn -[Fs.existsSync Mime.getMimeType Controller.quoted Constants.SERVER_ADDRESS
          Controller.header_value_ok].
    rewrite Hdisk, Hname. reflexivity.
  - unfold Dht.hasFile. apply bool_decide_eq_true.
    destruct (announce_lookup s now flush fileId (Controller.path f)
                (Controller.originalname f) (Js.Int (Controller.size f))) as [-> _].
    eauto.
  - intros message ->. unfold Controller.uploadFile.
    destruct (store_in_reach c fileId (Controller.path f) (Controller.originalname f)
                (Controller.size f) Hc) as [lines ->].
    reflexivity.
Qed.

Lemma uploaded_file_is_retrieved_witness :
  (Controller.retrieveFile
     (Controller.uploadFile Scenario.two_records Dht.create
        (Some (Controller.mkUploadedFile "my notes.txt" "1-u-my-notes.txt"
                 "/uploads/a.txt" 2))
        "123e4567-e89b-42d3-a456-426614174000" "2025-01-01T00:00:00.000Z"
        (Rejected "flush failed") "2025-01-01T00:00:01.000Z").1.1
     Scenario.both_files "123e4567-e89b-42d3-a456-426614174000").2
    = Controller.Download "/uploads/a.txt" "my notes.txt"
        [ ("Content-Type", Mime.getMimeType "my notes.txt");
          ("Content-Disposition",
           "attachment; filename=" +:+ Controller.quoted "my notes.txt");
          ("X-File-ID", "123e4567-e89b-42d3-a456-426614174000");
          ("X-Server-Address", Constants.SERVER_ADDRESS);
          ("X-Storage-Type", "cassandra") ]%string
  /\ Dht.hasFile
       (Controller.uploadFile Scenario.two_records Dht.create
          (Some (Controller.mkUploadedFile "my notes.txt" "1-u-my-notes.txt"
                   "/uploads/a.txt" 2))
          "123e4567-e89b-42d3-a456-426614174000" "2025-01-01T00:00:00.000Z"
          (Rejected "flush failed") "2025-01-01T00:00:01.000Z").1.2
       "123e4567-e89b-42d3-a456-426614174000" = true
  /\ (forall message,
        @Rejected unit "flush failed"%string = Rejected message ->
        (Controller.uploadFile Scenario.two_records Dht.create
           (Some (Controller.mkUploadedFile "my notes.txt" "1-u-my-notes.txt"
                    "/uploads/a.txt" 2))
           "123e4567-e89b-42d3-a456-426614174000" "2025-01-01T00:00:00.000Z"
           (Rejected "flush failed") "2025-01-01T00:00:01.000Z").2
        = Controller.Sent 500 (Controller.failure "Upload failed" message [])).
Proof.
  apply (uploaded_file_is_retrieved Scenario.two_records Dht.create
           (Controller.mkUploadedFile "my notes.txt" "1-u-my-notes.txt" "/uploads/a.txt" 2)
           "123e4567-e89b-42d3-a456-426614174000" "2025-01-01T00:00:00.000Z"
           (Rejected "flush failed") "2025-01-01T00:00:01.000Z" Scenario.both_files).
  - reflexivity.
  - vm_compute. reflexivity.
  - vm_compute. reflexivity.
  - vm_compute. reflexivity.
Defined.

(** X15.  [retrieveFile] of the controller with the database starts a
    download exactly when the identifier has the form of a UUID v4, the
    cluster is reached, it holds a record for the identifier, the file of
    that record exists on the disk, and the name of the record can be put in
    the [Content-Disposition] header; what it then sends is the file at the
    path of the record, under the name of the record.  In every other case it
    answers with a JSON document. *)
Theorem download_needs_record_and_file
    (c : Db.Cluster) (disk : gmap string Entry) (fileId p n : string)
    (headers : list (string * string)) :
  (Controller.retrieveFile c disk fileId).2 = Controller.Download p n headers
  <-> Controller.uuidRegex_test fileId = true
      /\ Db.fault c = None
      /\ (exists row,
            Db.files c !! fileId = Some row
            /\ p = Db.file_path row /\ n = Db.file_name row)
      /\ Fs.existsSync disk p = true
      /\ Controller.header_value_ok n = true
      /\ headers
         = Controller.download_headers fileId n [ ("X-Storage-Type", "cassandra") ]%string.
Proof.
  unfold Controller.retrieveFile, Db.getFileMetadata, Db.execute.
  destruct (Controller.uuidRegex_test fileId); cbn [negb].
  2: { split; [done | by intros [? _]]. }
  destruct (Db.fault c) as [message |].
  { cbn. split; [done | by intros (_ & ? & _)]. }
  destruct (Db.files c !! fileId) as [row |].
  2: { cbn. split; [done | by intros (_ & _ & (row & ? & _) & _)]. }
  cbn -[Fs.existsSync Controller.download_headers Controller.header_value_ok].
  destruct (Fs.existsSync disk (Db.file_path row)) eqn:He; cbn [negb snd].
  2: { split; [done |]. intros (_ & _ & (row' & [= <-] & -> & _) & Hp & _). congruence. }
  destruct (Controller.header_value_ok (Db.file_name row)) eqn:Hn; cbn [negb snd].
  - split.
    + intros [= <- <- <-]. repeat split; eauto.
    + intros (_ & _ & (row' & [= <-] & -> & ->) & _ & _ & ->). done.
  - split; [done |]. intros (_ & _ & (row' & [= <-] & _ & ->) & _ & Hp & _). congruence.
Qed.

(** X16.  [uploadFile] answers 200 exactly when there is a file in the
    request, the record is stored, and the flush of the announce resolves; and
    an upload that does not get through the store (no file, or the cluster not
    reached) leaves the table and the service as they were. *)
Theorem upload_answers_200_when_stored_and_announced
    (c : Db.Cluster) (s : Dht.DHTService) (file : option Controller.UploadedFile)
    (fileId now : string) (flush : Outcome unit) (uploadedAt : string) :
  ((exists body,
      (Controller.uploadFile c s file fileId now flush uploadedAt).2 = Controller.Sent 200 body)
   <-> is_Some file /\ Db.fault c = None /\ flush = Resolved tt)
  /\ ((is_Some file /\ Db.fault c = None)
      \/ (Controller.uploadFile c s file fileId now flush uploadedAt).1 = (c, s)).
Proof.
  unfold Controller.uploadFile, Db.storeFileMetadata, Db.execute, Dht.announceFile.
  destruct file as [f |].
  2: { split; [| by right]. split; [by intros [body [=]] | by intros [[? [=]] _]]. }
  destruct (Db.fault c) as [message |].
  { split; [| by right]. split; [by intros [body [=]] | by intros (_ & [=] & _)]. }
  split; [| left; eauto].
  destruct flush as [[] | message]; split; eauto; try by intros [body [=]].
  by intros (_ & _ & [=]).
Qed.

(** X17.  The controller without the database serves from the two maps of
    the service.  In a service a process can hold, [retrieveFile] starts a
    download exactly for an identifier of the form of a UUID v4 that was
    announced, whose file exists and whose name a header can hold, from the
    announced path and under the announced name; and it never fails on
    reading [fileName] of a missing metadata. *)
Theorem memory_download_needs_announce_and_file
    (s : Dht.DHTService) (disk : gmap string Entry) (fileId p n : string)
    (headers : list (string * string)) :
  Dht.reachable s ->
  (Controller.retrieveFile_memory s disk fileId = Controller.Download p n headers
   <-> Controller.uuidRegex_test fileId = true
       /\ (exists fileInfo,
             Dht.getFileMetadata s fileId = Some fileInfo
             /\ p = Dht.filePath fileInfo /\ n = Dht.fileName fileInfo)
       /\ Fs.existsSync disk p = true
       /\ Controller.header_value_ok n = true
       /\ headers = Controller.download_headers fileId n [])
  /\ Controller.retrieveFile_memory s disk fileId
     <> Controller.Sent 500
          (Controller.failure "Retrieval failed"
             "Cannot read properties of undefined (reading 'fileName')" []).
Proof.
  intros Hr. pose proof (reachable_paths s Hr fileId) as Hp.
  unfold Controller.retrieveFile_memory, Dht.hasFile, Dht.getFileMetadata, Dht.getFilePath.
  destruct (Controller.uuidRegex_test fileId); cbn [negb].
  2: { split; [| done]. split; [done | by intros [? _]]. }
  rewrite Hp.
  destruct (Dht.storedFiles s !! fileId) as [fileInfo |] eqn:Hs; cbn [fmap option_fmap option_map].
  2: { rewrite bool_decide_eq_false_2 by (by intros [? ?]). cbn [negb].
       split; [| done]. split; [done | by intros (_ & (? & ? & _) & _)]. }
  rewrite bool_decide_eq_true_2 by eauto. cbn [negb].
  destruct (Fs.existsSync disk (Dht.filePath fileInfo)) eqn:He; cbn [negb].
  2: { split; [| done]. split; [done |].
       intros (_ & (m & [= <-] & -> & _) & Hx & _). congruence. }
  destruct (Controller.header_value_ok (Dht.fileName fileInfo)) eqn:Hn; cbn [negb].
  - split; [| done]. split.
    + intros [= <- <- <-]. repeat split; eauto.
    + intros (_ & (m & [= <-] & -> & ->) & _ & _ & ->). done.
  - split; [| by vm_compute]. split; [done |].
    intros (_ & (m & [= <-] & _ & ->) & _ & Hx & _). congruence.
Qed.

Lemma memory_download_needs_announce_and_file_witness :
  (Controller.retrieveFile_memory
     (Controller.uploadFile_memory Dht.create
        (Some (Controller.mkUploadedFile "a.txt" "1-u-a.txt" "/uploads/a.txt" 2))
        "123e4567-e89b-42d3-a456-426614174000" "2025-01-01T00:00:00.000Z"
        (Resolved tt) "2025-01-01T00:00:01.000Z").1
     Scenario.both_files "123e4567-e89b-42d3-a456-426614174000"
   = Controller.Download "/uploads/a.txt" "a.txt"
       (Controller.download_headers "123e4567-e89b-42d3-a456-426614174000" "a.txt" [])
   <-> Controller.uuidRegex_test "123e4567-e89b-42d3-a456-426614174000" = true
       /\ (exists fileInfo,
             Dht.getFileMetadata
               (Controller.uploadFile_memory Dht.create
                  (Some (Controller.mkUploadedFile "a.txt" "1-u-a.txt" "/uploads/a.txt" 2))
                  "123e4567-e89b-42d3-a456-426614174000" "2025-01-01T00:00:00.000Z"
                  (Resolved tt) "2025-01-01T00:00:01.000Z").1
               "123e4567-e89b-42d3-a456-426614174000" = Some fileInfo
             /\ "/uploads/a.txt"%string = Dht.filePath fileInfo
             /\ "a.txt"%string = Dht.fileName fileInfo)
       /\ Fs.existsSync Scenario.both_files "/uploads/a.txt" = true
       /\ Controller.header_value_ok "a.txt" = true
       /\ Controller.download_headers "123e4567-e89b-42d3-a456-426614174000" "a.txt" []
          = Controller.download_headers "123e4567-e89b-42d3-a456-426614174000" "a.txt" [])
  /\ Controller.retrieveFile_memory
       (Controller.uploadFile_memory Dht.create
          (Some (Controller.mkUploadedFile "a.txt" "1-u-a.txt" "/uploads/a.txt" 2))
          "123e4567-e89b-42d3-a456-426614174000" "2025-01-01T00:00:00.000Z"
          (Resolved tt) "2025-01-01T00:00:01.000Z").1
       Scenario.both_files "123e4567-e89b-42d3-a456-426614174000"
     <> Controller.Sent 500
          (Controller.failure "Retrieval failed"
             "Cannot read properties of undefined (reading 'fileName')" []).
Proof.
  apply (memory_download_needs_announce_and_file
           (Controller.uploadFile_memory Dht.create
              (Some (Controller.mkUploadedFile "a.txt" "1-u-a.txt" "/uploads/a.txt" 2))
              "123e4567-e89b-42d3-a456-426614174000" "2025-01-01T00:00:00.000Z"
              (Resolved tt) "2025-01-01T00:00:01.000Z").1).
  exact (Dht.reachable_announce Dht.create "2025-01-01T00:00:00.000Z" (Resolved tt)
           "123e4567-e89b-42d3-a456-426614174000" "/uploads/a.txt" "a.txt" (Js.Int 2)
           Dht.reachable_create).
Defined.

(** ** The service after a rehydration pass *)

Section RestartFacts.
Variables (disk : gmap string Entry) (net : nat -> string * Outcome unit).







End RestartFacts.





(** ** The extension and the type of a name *)

Section MimeFacts.
Import Js Mime.

Lemma list_of_append (s1 s2 : string) :
  list_ascii_of_string (s1 +:+ s2) = list_ascii_of_string s1 ++ list_ascii_of_string s2.
Proof.
  induction s1 as [| a r IH]; [done |]. rewrite append_cons. cbn. by rewrite IH.
Qed.

Lemma includes_list (c : ascii) (s : string) :
  includes c s = false <-> Forall (fun a => a <> c) (list_ascii_of_string s).
Proof.
  induction s as [| a r IH]; cbn; [by split; [constructor |] |].
  destruct (decide (a = c)) as [-> | Hne].
  - split; [done |]. by intros [? _]%Forall_cons.
  - rewrite IH. split; [by constructor | by intros [_ ?]%Forall_cons].
Qed.

Lemma until_app (stop : ascii) (l1 l2 : list ascii) :
  Forall (fun a => a <> stop) l1 -> until stop (l1 ++ l2) = l1 ++ until stop l2.
Proof.
  induction 1 as [| a l Ha Hl IH]; [done |]. cbn.
  destruct (decide (a = stop)); [done |]. by rewrite IH.
Qed.

Lemma until_all (stop : ascii) (l : list ascii) :
  Forall (fun a => a <> stop) l -> until stop l = l.
Proof.
  intros H. rewrite <- (app_nil_r l) at 1. rewrite until_app by done. cbn. apply app_nil_r.
Qed.

Lemma after_app (stop : ascii) (l1 l2 : list ascii) :
  Forall (fun a => a <> stop) l1 -> after stop (l1 ++ l2) = after stop l2.
Proof.
  induction 1 as [| a l Ha Hl IH]; [done |]. cbn.
  destruct (decide (a = stop)); [done |]. by rewrite IH.
Qed.

Lemma until_sub (stop c : ascii) (l : list ascii) :
  Forall (fun a => a <> c) l -> Forall (fun a => a <> c) (until stop l).
Proof.
  induction 1 as [| a l Ha Hl IH]; [constructor |]. cbn.
  destruct (decide (a = stop)); [constructor | by constructor].
Qed.

Lemma drop_slashes_sub (c : ascii) (l : list ascii) :
  Forall (fun a => a <> c) l -> Forall (fun a => a <> c) (drop_slashes l).
Proof.
  induction 1 as [| a l Ha Hl IH]; [constructor |]. cbn.
  destruct (decide (a = slash)); [done | by constructor].
Qed.

Lemma toLowerCase_dot (e : string) :
  toLowerCase (String dot e) = String dot (toLowerCase e).
Proof. reflexivity. Qed.

Lemma lower_lower (x : ascii) : lower (lower x) = lower x.
Proof. destruct x as [[] [] [] [] [] [] [] []]; reflexivity. Qed.

Lemma toLowerCase_again (e : string) : toLowerCase (toLowerCase e) = toLowerCase e.
Proof. induction e as [| x r IH]; [done |]. cbn. by rewrite lower_lower, IH. Qed.

Lemma lower_mark (c x : ascii) : c = dot \/ c = slash -> lower x = c -> x = c.
Proof.
  intros [-> | ->]; destruct x as [[] [] [] [] [] [] [] []]; vm_compute; congruence.
Qed.

Lemma toLowerCase_includes (c : ascii) (e : string) :
  c = dot \/ c = slash -> includes c e = false -> includes c (toLowerCase e) = false.
Proof.
  intros Hc. induction e as [| x r IH]; [done |]. cbn [includes toLowerCase].
  destruct (decide (x = c)) as [| Hn]; [done |].
  destruct (decide (lower x = c)) as [Hx |]; [| done].
  by destruct (Hn (lower_mark c x Hc Hx)).
Qed.

(** The extension of a name that ends in a character other than a slash, a
    dot, and some characters that are neither a dot nor a slash. *)
Lemma extname_last (base : string) (a : ascii) (e : string) :
  a <> slash ->
  e <> EmptyString ->
  includes dot e = false ->
  includes slash e = false ->
  extname (base +:+ String a (String dot e)) = String dot e.
Proof.
  intros Ha He Hdot Hslash. unfold extname.
  rewrite list_of_append. cbn [list_ascii_of_string].
  rewrite rev_app_distr. cbn [rev]. rewrite <- !app_assoc. cbn [app].
  apply includes_list in Hdot, Hslash.
  apply Forall_rev in Hdot, Hslash.
  destruct (rev (list_ascii_of_string e)) as [| x l] eqn:Hrev.
  { apply (f_equal (@rev ascii)) in Hrev. rewrite rev_involutive in Hrev. cbn in Hrev.
    destruct e; [done | discriminate Hrev]. }
  assert (Hx : x <> slash) by (by apply Forall_cons in Hslash as [? _]).
  assert (Hxd : x <> dot) by (by apply Forall_cons in Hdot as [? _]).
  cbn [app drop_slashes]. destruct (decide (x = slash)); [done |].
  change (x :: l ++ dot :: a :: rev (list_ascii_of_string base))
    with ((x :: l) ++ dot :: a :: rev (list_ascii_of_string base)).
  rewrite (until_app slash (x :: l)) by done.
  cbn [until]. destruct (decide (dot = slash)) as [Hds |]; [discriminate Hds |].
  destruct (decide (a = slash)); [done |].
  rewrite (after_app dot (x :: l)) by done.
  cbn [after]. destruct (decide (dot = dot)); [| done].
  destruct (decide (_ = [dot; dot])) as [Heq | _].
  { cbn in Heq. congruence. }
  rewrite (until_app dot (x :: l)) by done.
  cbn [until]. destruct (decide (dot = dot)); [| done].
  rewrite app_nil_r, <- Hrev, rev_involutive.
  cbn [string_of_list_ascii]. by rewrite string_of_list_ascii_of_string.
Qed.

End MimeFacts.

(** X3.  The type follows the last extension, in lower case.  For a name
    whose last component has a character before its last dot and a non-empty
    extension after it, [path.extname] is the dot and that extension, and
    [getMimeType] is the entry of the table for the extension in lower case,
    or [application/octet-stream] when the table has none: directories and
    earlier dots of the name, and the case of the extension, do not count. *)
Theorem mime_type_follows_the_extension (base : string) (a : ascii) (e : string) :
  a <> Mime.slash ->
  e <> EmptyString ->
  Js.includes Mime.dot e = false ->
  Js.includes Mime.slash e = false ->
  Mime.extname (base +:+ String a (String Mime.dot e)) = String Mime.dot e
  /\ Mime.getMimeType (base +:+ String a (String Mime.dot e))
     = default "application/octet-stream"%string
         (Mime.assoc (String Mime.dot (Js.toLowerCase e)) Mime.mimeTypes)
  /\ Mime.getMimeType (base +:+ String a (String Mime.dot e))
     = Mime.getMimeType (String a (String Mime.dot (Js.toLowerCase e))).
Proof.
  intros Ha He Hdot Hslash.
  pose proof (extname_last base a e Ha He Hdot Hslash) as Hext.
  split; [done |].
  unfold Mime.getMimeType. rewrite Hext, toLowerCase_dot. split; [done |].
  assert (Hlow : Mime.extname (EmptyString +:+ String a (String Mime.dot (Js.toLowerCase e)))
                 = String Mime.dot (Js.toLowerCase e)).
  { apply extname_last; [done | by destruct e | |].
    - apply toLowerCase_includes; [by left | done].
    - apply toLowerCase_includes; [by right | done]. }
  change (EmptyString +:+ ?s) with s in Hlow.
  by rewrite Hlow, toLowerCase_dot, toLowerCase_again.
Qed.

Lemma mime_type_follows_the_extension_witness :
  Mime.extname ("/srv/uploads/1-u-Q3.report" +:+ String "s" (String Mime.dot "PDF"))
    = String Mime.dot "PDF"
  /\ Mime.getMimeType ("/srv/uploads/1-u-Q3.report" +:+ String "s" (String Mime.dot "PDF"))
     = default "application/octet-stream"%string
         (Mime.assoc (String Mime.dot (Js.toLowerCase "PDF")) Mime.mimeTypes)
  /\ Mime.getMimeType ("/srv/uploads/1-u-Q3.report" +:+ String "s" (String Mime.dot "PDF"))
     = Mime.getMimeType (String "s" (String Mime.dot (Js.toLowerCase "PDF"))).
Proof.
  apply (mime_type_follows_the_extension "/srv/uploads/1-u-Q3.report" "s" "PDF");
    [discriminate | discriminate | reflexivity | reflexivity].
Defined.

(** X20.  A name without a dot has no extension, and its type is
    [application/octet-stream]. *)
Theorem name_without_dot_is_octet_stream (fileName : string) :
  Js.includes Mime.dot fileName = false ->
  Mime.extname fileName = EmptyString
  /\ Mime.getMimeType fileName = "application/octet-stream"%string.
Proof.
  intros H. apply includes_list in H. apply Forall_rev in H.
  assert (Hext : Mime.extname fileName = EmptyString).
  { unfold Mime.extname.
    pose proof (until_sub Mime.slash Mime.dot _ (drop_slashes_sub Mime.dot _ H)) as Hb.
    rewrite <- (app_nil_r (Mime.until _ _)) at 1.
    by rewrite (after_app Mime.dot _ [] Hb). }
  split; [done |]. unfold Mime.getMimeType. by rewrite Hext.
Qed.

Lemma name_without_dot_is_octet_stream_witness :
  Mime.extname "uploads/Makefile" = EmptyString
  /\ Mime.getMimeType "uploads/Makefile" = "application/octet-stream"%string.
Proof. apply (name_without_dot_is_octet_stream "uploads/Makefile"). reflexivity. Defined.

(** ** The name of the stored file *)

Section SanitizeFacts.
Import Js Upload.

Lemma dash_plain : is_white_space "-" = false.
Proof. reflexivity. Qed.

Lemma sanitize_from_plain (name : string) :
  forall in_run, no_white_space (sanitize_from in_run name) = true.
Proof.
  induction name as [| a r IH]; intros in_run; [done |]. cbn [sanitize_from].
  destruct (is_white_space a) eqn:Ha.
  - destruct in_run; [apply IH |]. cbn [no_white_space]. by rewrite dash_plain, IH.
  - cbn [no_white_space]. by rewrite Ha, IH.
Qed.

Lemma sanitize_from_fixed (name : string) :
  no_white_space name = true -> sanitize_from false name = name.
Proof.
  induction name as [| a r IH]; [done |]. cbn [no_white_space sanitize_from].
  intros [Ha Hr]%andb_prop. apply negb_true_iff in Ha. by rewrite Ha, IH.
Qed.

Lemma sanitize_from_length (name : string) :
  forall in_run, (String.length (sanitize_from in_run name) <= String.length name)%nat.
Proof.
  induction name as [| a r IH]; intros in_run; [done |]. cbn [sanitize_from].
  destruct (is_white_space a); [destruct in_run |]; cbn [String.length];
    pose proof (IH true); pose proof (IH false); lia.
Qed.

End SanitizeFacts.

(** X21.  The name multer stores a file under has no white space from the
    original name: every run of white space has become one dash.  A name
    that is already sanitized is kept as it is, and the sanitized name is not
    longer than the original. *)
Theorem sanitized_name_has_no_white_space (originalname : string) :
  Upload.no_white_space (Upload.sanitize originalname) = true
  /\ Upload.sanitize (Upload.sanitize originalname) = Upload.sanitize originalname
  /\ (String.length (Upload.sanitize originalname) <= String.length originalname)%nat.
Proof.
  unfold Upload.sanitize. repeat split.
  - apply sanitize_from_plain.
  - apply sanitize_from_fixed, sanitize_from_plain.
  - apply sanitize_from_length.
Qed.

(** X22.  With the controller without the database, what is uploaded is
    retrieved from the same process: after [uploadFile] of a file that is on
    the disk and whose name a header can hold, [retrieveFile] for the
    identifier of the upload starts the download of that file under its
    original name, whether the flush of the announce resolved or not; and the
    answers for the other identifiers are what they were before the upload. *)
Theorem memory_upload_is_retrieved
    (s : Dht.DHTService) (f : Controller.UploadedFile) (fileId now : string)
    (flush : Outcome unit) (uploadedAt : string) (disk : gmap string Entry) :
  Controller.uuidRegex_test fileId = true ->
  Fs.existsSync disk (Controller.path f) = true ->
  Controller.header_value_ok (Controller.originalname f) = true ->
  Controller.retrieveFile_memory
    (Controller.uploadFile_memory s (Some f) fileId now flush uploadedAt).1 disk fileId
    = Controller.Download (Controller.path f) (Controller.originalname f)
        [ ("Content-Type", Mime.getMimeType (Controller.originalname f));
          ("Content-Disposition",
           "attachment; filename=" +:+ Controller.quoted (Controller.originalname f));
          ("X-File-ID", fileId);
          ("X-Server-Address", Constants.SERVER_ADDRESS) ]%string
  /\ (forall other,
        other <> fileId ->
        Controller.retrieveFile_memory
          (Controller.uploadFile_memory s (Some f) fileId now flush uploadedAt).1 disk other
        = Controller.retrieveFile_memory s disk other).
Proof.
  intros Hid Hdisk Hname.
  assert (Hs : (Controller.uploadFile_memory s (Some f) fileId now flush uploadedAt).1
               = (Dht.announceFile s now flush fileId (Controller.path f)
                    (Controller.originalname f) (Js.Int (Controller.size f))).1).
  { unfold Controller.uploadFile_memory, Dht.announceFile. by destruct flush. }
  rewrite Hs. split.
  - destruct (announce_lookup s now flush fileId (Controller.path f)
                (Controller.originalname f) (Js.Int (Controller.size f))) as [Ha Hb].
    unfold Controller.retrieveFile_memory, Dht.hasFile, Dht.getFileMetadata, Dht.getFilePath.
    rewrite Hid, Ha, Hb. rewrite bool_decide_eq_true_2 by eauto.
    cbn [negb Dht.fileName]. rewrite Hdisk, Hname. reflexivity.
  - intros other Hne.
    destruct (announce_lookup_ne s now flush fileId (Controller.path f)
                (Controller.originalname f) (Js.Int (Controller.size f)) other) as [Ha Hb];
      [done |].
    unfold Controller.retrieveFile_memory, Dht.hasFile, Dht.getFileMetadata, Dht.getFilePath.
    by rewrite Ha, Hb.
Qed.

Lemma memory_upload_is_retrieved_witness :
  Controller.retrieveFile_memory
    (Controller.uploadFile_memory Dht.create
       (Some (Controller.mkUploadedFile "my notes.txt" "1-u-my-notes.txt" "/uploads/a.txt" 2))
       "123e4567-e89b-42d3-a456-426614174000" "2025-01-01T00:00:00.000Z"
       (Rejected "flush failed") "2025-01-01T00:00:01.000Z").1
    Scenario.both_files "123e4567-e89b-42d3-a456-426614174000"
    = Controller.Download "/uploads/a.txt" "my notes.txt"
        [ ("Content-Type", Mime.getMimeType "my notes.txt");
          ("Content-Disposition",
           "attachment; filename=" +:+ Controller.quoted "my notes.txt");
          ("X-File-ID", "123e4567-e89b-42d3-a456-426614174000");
          ("X-Server-Address", Constants.SERVER_ADDRESS) ]%string
  /\ (forall other,
        other <> "123e4567-e89b-42d3-a456-426614174000"%string ->
        Controller.retrieveFile_memory
          (Controller.uploadFile_memory Dht.create
             (Some (Controller.mkUploadedFile "my notes.txt" "1-u-my-notes.txt"
                      "/uploads/a.txt" 2))
             "123e4567-e89b-42d3-a456-426614174000" "2025-01-01T00:00:00.000Z"
             (Rejected "flush failed") "2025-01-01T00:00:01.000Z").1
          Scenario.both_files other
        = Controller.retrieveFile_memory Dht.create Scenario.both_files other).
Proof.
  apply (memory_upload_is_retrieved Dht.create
           (Controller.mkUploadedFile "my notes.txt" "1-u-my-notes.txt" "/uploads/a.txt" 2)
           "123e4567-e89b-42d3-a456-426614174000" "2025-01-01T00:00:00.000Z"
           (Rejected "flush failed") "2025-01-01T00:00:01.000Z" Scenario.both_files).
  - vm_compute. reflexivity.
  - vm_compute. reflexivity.
  - vm_compute. reflexivity.
Defined.

Section FilenameFacts.
Import Js Upload.

Lemma plain_app (s1 s2 : string) :
  no_white_space (s1 +:+ s2) = no_white_space s1 && no_white_space s2.
Proof.
  induction s1 as [| a r IH]; [done |]. rewrite append_cons. cbn [no_white_space].
  by rewrite IH, andb_assoc.
Qed.

Lemma uint_plain (u : Decimal.uint) : no_white_space (NilEmpty.string_of_uint u) = true.
Proof. induction u; cbn [NilEmpty.string_of_uint no_white_space]; by rewrite ?IHu. Qed.

Lemma decimal_plain (z : Z) : no_white_space (Db.decimal z) = true.
Proof.
  unfold Db.decimal, NilZero.string_of_int, NilZero.string_of_uint.
  destruct (Z.to_int z) as [u | u]; destruct u; try done;
    cbn [no_white_space]; rewrite ?dash_plain; cbn [negb andb];
    match goal with
    | |- no_white_space (NilEmpty.string_of_uint ?u) = true => apply (uint_plain u)
    end.
Qed.

End FilenameFacts.

(** X23.  The name a file is stored under on the disk, made of the time, the
    unique identifier and the sanitized original name, has no white space,
    whatever the original name is. *)
Theorem stored_filename_has_no_white_space
    (timestamp : Z) (uniqueId originalname : string) :
  Controller.uuidRegex_test uniqueId = true ->
  Upload.no_white_space (Upload.filename timestamp uniqueId originalname) = true.
Proof.
  intros H. unfold Controller.uuidRegex_test in H. unfold Upload.filename, Upload.sanitize.
  rewrite !plain_app, decimal_plain, (matches_plain _ _ H), sanitize_from_plain. reflexivity.
Qed.

Lemma stored_filename_has_no_white_space_witness :
  Upload.no_white_space
    (Upload.filename 1735689600000 "123e4567-e89b-42d3-a456-426614174000"
       "my  holiday photo.JPG") = true.
Proof.
  apply (stored_filename_has_no_white_space 1735689600000
           "123e4567-e89b-42d3-a456-426614174000" "my  holiday photo.JPG").
  vm_compute. reflexivity.
Defined.
